(** * scripts/validate-projects.mjs: the project-data validator

    A shallow embedding of the validation script and the properties its
    specification states about it.

    The script is a sequential program with three kinds of effect: it
    writes lines to the console, it reads the file system, and it ends the
    process (by [process.exit], or by an exception that reaches the
    top-level [catch]).  It keeps one mutable local, [hasErrors].  The
    embedding is a small monad over exactly these: the flag is threaded as
    state, console lines and file-system calls are appended to a trace in
    the order they happen, and a computation completes normally, by a
    thrown exception or by an exit.

    What the script takes from Node and from the Ajv library (path
    joining, JSON parsing, schema compilation, number formatting) and the
    contents of the disk are the fields of two classes, [Runtime] and
    [FileSystem]; every theorem holds for all their instances. *)

From Stdlib Require Import ZArith String Ascii List Bool Lia.
From Stdlib Require Import Floats.SpecFloat.
From stdpp Require Import base option list strings gmap pretty.

Set Warnings "-register-all".

Local Open Scope Z_scope.
Local Open Scope string_scope.
Local Open Scope list_scope.

(** ** JSON values, as [JSON.parse] returns them *)

(** A number is an IEEE 754 double; an object is a finite map from its own
    property names to values (for a repeated key [JSON.parse] keeps the
    last value).  A string is the sequence of its UTF-8 bytes: the script
    only searches strings for the ASCII characters [/] and [\] and
    compares them with ASCII names, which comes to the same on bytes and
    on UTF-16 code units.  The value [undefined], which a property read
    yields for a missing key, is [None] of [option json]. *)
Inductive json : Type :=
  | JNull
  | JBool (b : bool)
  | JNumber (x : spec_float)
  | JString (s : string)
  | JArray (l : list json)
  | JObject (m : gmap string json).

Abbreviation undefined := (@None json).

(** What can be thrown during a run. *)
Inductive exn : Type :=
  | TypeError
  | SyntaxError
  | SystemError (path : string)
  | SchemaCompileError.

(** One entry of [validate.errors]. *)
Record ErrorObject : Type := {
  instancePath : string;
  message : string
}.

(** The function [ajv.compile] returns: [validate(data)] is the verdict
    and, after a call that returned [false], [validate.errors] lists the
    violations.  The validator is a synchronous one: a schema marked
    [$async], whose validator returns a promise, is outside this model. *)
Record ValidateFunction : Type := {
  validate_call : json -> bool;
  validate_errors : json -> list ErrorObject
}.

(** ** The environment of a run *)

Class Runtime : Type := {
  (** [path.resolve(process.cwd())] *)
  cwd : string;
  (** [path.join(...)] on strings *)
  path_join : list string -> string;
  (** [JSON.parse]; [None] when it throws a [SyntaxError] *)
  JSON_parse : string -> option json;
  (** [new Ajv2020({ allErrors: true, allowUnionTypes: true })],
      [addFormats(ajv)] and [ajv.compile(schema)]; [None] when the schema
      is rejected *)
  ajv_compile : json -> option ValidateFunction;
  (** the text of a number inside a template literal *)
  Number_toString : spec_float -> string;
  (** the text of [Math.round(size/1024/1024 * 10) / 10] inside a template
      literal, for a file of [size] bytes (floating-point arithmetic and
      number formatting of the JavaScript engine) *)
  megabytes : Z -> string
}.

Class FileSystem : Type := {
  (** [fs.readFileSync(p, 'utf8')]; [None] when it throws *)
  file_content : string -> option string;
  (** [fs.readdirSync(p)]; [None] when it throws *)
  dir_entries : string -> option (list string);
  (** [fs.existsSync(p)], which never throws *)
  path_exists : string -> bool;
  (** [fs.statSync(p).size]; [None] when [statSync] throws *)
  stat_size : string -> option Z
}.

(** ** Effects *)

Inductive event : Type :=
  | console_log (line : string)
  | console_error (line : string)
  | console_error_exn (e : exn)
  | readFileSync_call (p : string)
  | readdirSync_call (p : string)
  | existsSync_call (p : string)
  | statSync_call (p : string).

Inductive completion (A : Type) : Type :=
  | Normal (a : A) (hasErrors : bool)
  | Thrown (e : exn)
  | Exited (code : Z).

Arguments Normal {A} a hasErrors.
Arguments Thrown {A} e.
Arguments Exited {A} code.

(** A computation starts from a value of the flag and yields the events
    it produced and how it completed. *)
Definition M (A : Type) : Type := bool -> list event * completion A.

Definition ret {A} (a : A) : M A := fun h => ([], Normal a h).

Definition bind {A B} (m : M A) (f : A -> M B) : M B :=
  fun h =>
    match m h with
    | (t, Normal a h') => (t ++ fst (f a h'), snd (f a h'))
    | (t, Thrown e) => (t, Thrown e)
    | (t, Exited c) => (t, Exited c)
    end.

Declare Scope js_scope.
Delimit Scope js_scope with js.
Notation "x <- m ;; k" := (bind m (fun x => k))
  (at level 100, m at next level, right associativity) : js_scope.
Notation "m ;; k" := (bind m (fun _ => k))
  (at level 100, k at level 200, right associativity) : js_scope.
Local Open Scope js_scope.

Definition throw {A} (e : exn) : M A := fun _ => ([], Thrown e).
Definition process_exit {A} (code : Z) : M A := fun _ => ([], Exited code).
Definition emit (ev : event) : M unit := fun h => ([ev], Normal tt h).
Definition set_hasErrors (b : bool) : M unit := fun _ => ([], Normal tt b).
Definition get_hasErrors : M bool := fun h => ([], Normal h h).

(** [for (const x of l) body(x)] *)
Fixpoint for_of {A} (l : list A) (body : A -> M unit) : M unit :=
  match l with
  | [] => ret tt
  | x :: l' => body x ;; for_of l' body
  end.

Definition trace {A} (r : list event * completion A) : list event := fst r.
Definition outcome {A} (r : list event * completion A) : completion A := snd r.

(** ** The operations of JavaScript the script uses *)

Definition ESC : string := String "027"%char "".
Definition LF : string := String "010"%char "".
Definition DQUOTE : string := String "034"%char "".

(** [s.includes(pat)] on strings. *)
Fixpoint String_includes (s pat : string) : bool :=
  if String.prefix pat s then true
  else match s with
       | EmptyString => false
       | String _ s' => String_includes s' pat
       end.

(** [s.endsWith(suffix)] *)
Definition String_endsWith (s suffix : string) : bool :=
  let n := String.length s in
  let k := String.length suffix in
  (k <=? n)%nat && String.eqb (substring (n - k) k s) suffix.

(** Truthiness of a value in the condition of an [if]. *)
Definition ToBoolean (v : option json) : bool :=
  match v with
  | None => false
  | Some JNull => false
  | Some (JBool b) => b
  | Some (JNumber x) =>
      match x with
      | S754_zero _ | S754_nan => false
      | _ => true
      end
  | Some (JString s) => negb (String.eqb s "")
  | Some (JArray _) | Some (JObject _) => true
  end.

(** [data.key], for a [key] that no built-in prototype defines (the
    script reads [imageUrl], [projectImage] and [studentPhoto]): reading a
    property of [null] throws, a primitive or an array has no such
    property, an object yields its own property. *)
Definition get_property (data : json) (key : string) : M (option json) :=
  match data with
  | JNull => throw TypeError
  | JObject m => ret (m !! key)
  | _ => ret undefined
  end.

(** [key in data], for a [key] that no built-in prototype defines: the
    operator throws on anything that is not an object. *)
Definition has_property (key : string) (data : json) : M bool :=
  match data with
  | JObject m => ret (bool_decide (is_Some (m !! key)))
  | JArray _ => ret false
  | _ => throw TypeError
  end.

(** [v.includes(pat)]: the method of strings (substring test) or of
    arrays (some element is the string [pat]); every other value has no
    callable [includes]. *)
Definition includes (v : option json) (pat : string) : M bool :=
  match v with
  | Some (JString s) => ret (String_includes s pat)
  | Some (JArray l) =>
      ret (existsb (fun e => match e with
                             | JString s => String.eqb s pat
                             | _ => false
                             end) l)
  | _ => throw TypeError
  end.

Section WithRuntime.
Context `{Runtime}.

(** The text of a value inside a template literal; [None] when the
    conversion throws.  An array joins its elements with commas, [null]
    elements giving the empty text; an object gives [[object Object]]
    unless an own property hides [Object.prototype.toString]. *)
Fixpoint ToString (v : json) : option string :=
  match v with
  | JNull => Some "null"
  | JBool b => Some (if b then "true" else "false")
  | JNumber x => Some (Number_toString x)
  | JString s => Some s
  | JArray l =>
      (fix join (l : list json) : option string :=
         match l with
         | [] => Some ""
         | e :: l' =>
             let first := match e with
                          | JNull => Some ""
                          | _ => ToString e
                          end in
             match first, l' with
             | None, _ => None
             | Some s, [] => Some s
             | Some s, _ :: _ =>
                 match join l' with
                 | None => None
                 | Some r => Some (s +:+ "," +:+ r)
                 end
             end
         end) l
  | JObject m =>
      if bool_decide (is_Some (m !! "toString")) then None
      else Some "[object Object]"
  end.

Definition template (v : option json) : M string :=
  match v with
  | None => ret "undefined"
  | Some j => match ToString j with
              | Some s => ret s
              | None => throw TypeError
              end
  end.

(** [path.join(dir, v)]: throws unless [v] is a string. *)
Definition path_join_value (dir : string) (v : option json) : M string :=
  match v with
  | Some (JString s) => ret (path_join [dir; s])
  | _ => throw TypeError
  end.

(** ** The script *)

Definition root : string := cwd.
Definition projectsDir : string := path_join [root; "src"; "data"; "projects"].
Definition publicImagesDir : string := path_join [root; "public"; "images"].
Definition schemaPath : string := path_join [projectsDir; "project.schema.json"].

Definition error (msg : string) : M unit :=
  emit (console_error (ESC +:+ "[31mError:" +:+ ESC +:+ "[0m " +:+ msg)).

Definition info (msg : string) : M unit :=
  emit (console_log (ESC +:+ "[36mInfo:" +:+ ESC +:+ "[0m " +:+ msg)).

Definition maxBytes : Z := 10 * 1024 * 1024.

Definition renamed_message : string :=
  " - 'imageUrl' has been renamed to 'projectImage'. Please update your JSON.".

Definition suggested : list string := ["projectUrl"; "githubUrl"; "tags"].

Definition suggestion_message (key : string) : string :=
  " - suggestion: consider adding " +:+ DQUOTE +:+ key +:+ DQUOTE.

Section WithFileSystem.
Context `{FileSystem}.

Definition readFileSync (p : string) : M string :=
  emit (readFileSync_call p) ;;
  match file_content p with
  | Some s => ret s
  | None => throw (SystemError p)
  end.

Definition readdirSync (p : string) : M (list string) :=
  emit (readdirSync_call p) ;;
  match dir_entries p with
  | Some l => ret l
  | None => throw (SystemError p)
  end.

Definition existsSync (p : string) : M bool :=
  emit (existsSync_call p) ;; ret (path_exists p).

Definition statSync (p : string) : M Z :=
  emit (statSync_call p) ;;
  match stat_size p with
  | Some size => ret size
  | None => throw (SystemError p)
  end.

(* function readJSON(filePath) *)
Definition readJSON (filePath : string) : M json :=
  s <- readFileSync filePath ;;
  match JSON_parse s with
  | Some v => ret v
  | None => throw SyntaxError
  end.

(* function findProjectFiles() *)
Definition findProjectFiles : M (list string) :=
  l <- readdirSync projectsDir ;;
  ret (List.filter
         (fun f => String_endsWith f ".json"
                   && negb (String.eqb f "project.schema.json")) l).

(* lines 52-59: const valid = validate(data); if (!valid) { ... } *)
Definition check_schema (validate : ValidateFunction) (file : string)
    (data : json) : M unit :=
  let valid := validate_call validate data in
  if negb valid then
    set_hasErrors true ;;
    emit (console_log (LF +:+ ESC +:+ "[33m" +:+ file +:+ ESC
                       +:+ "[0m schema errors:")) ;;
    for_of (validate_errors validate data) (fun err =>
      emit (console_log
              (" - " +:+ (if String.eqb (instancePath err) ""
                          then "(root)" else instancePath err)
               +:+ " " +:+ message err)))
  else ret tt.

(* lines 62-65: if (data.imageUrl) { ... } *)
Definition check_imageUrl (data : json) : M unit :=
  imageUrl <- get_property data "imageUrl" ;;
  if ToBoolean imageUrl then
    set_hasErrors true ;;
    emit (console_log renamed_message)
  else ret tt.

(* lines 67-86: if (data.projectImage) { ... }
   The property is bound once: every read of it in the block yields the
   same value, and only the first can throw. *)
Definition check_projectImage (data : json) : M unit :=
  projectImage <- get_property data "projectImage" ;;
  if ToBoolean projectImage then
    slash <- includes projectImage "/" ;;
    path_like <- (if slash then ret true else includes projectImage "\") ;;
    if path_like then
      set_hasErrors true ;;
      text <- template projectImage ;;
      emit (console_log
              (" - projectImage should be a filename only, no path (got '"
               +:+ text +:+ "')"))
    else
      imgPath <- path_join_value publicImagesDir projectImage ;;
      found <- existsSync imgPath ;;
      if negb found then
        set_hasErrors true ;;
        text <- template projectImage ;;
        emit (console_log (" - image not found at public/images/" +:+ text))
      else
        size <- statSync imgPath ;;
        if size >? maxBytes then
          set_hasErrors true ;;
          emit (console_log (" - image is large (" +:+ megabytes size
                             +:+ "MB). Please keep < 10MB."))
        else ret tt
  else ret tt.

(* lines 88-106: if (data.studentPhoto) { ... } *)
Definition check_studentPhoto (data : json) : M unit :=
  studentPhoto <- get_property data "studentPhoto" ;;
  if ToBoolean studentPhoto then
    slash <- includes studentPhoto "/" ;;
    path_like <- (if slash then ret true else includes studentPhoto "\") ;;
    if path_like then
      set_hasErrors true ;;
      text <- template studentPhoto ;;
      emit (console_log
              (" - studentPhoto should be a filename only, no path (got '"
               +:+ text +:+ "')"))
    else
      imgPath <- path_join_value publicImagesDir studentPhoto ;;
      found <- existsSync imgPath ;;
      if negb found then
        set_hasErrors true ;;
        text <- template studentPhoto ;;
        emit (console_log (" - image not found at public/images/" +:+ text))
      else
        size <- statSync imgPath ;;
        if size >? maxBytes then
          set_hasErrors true ;;
          emit (console_log (" - image is large (" +:+ megabytes size
                             +:+ "MB). Please keep < 10MB."))
        else ret tt
  else ret tt.

(* lines 109-114: for (const key of suggested) { if (!(key in data)) ... } *)
Definition check_suggested (data : json) : M unit :=
  for_of suggested (fun key =>
    present <- has_property key data ;;
    if negb present then emit (console_log (suggestion_message key))
    else ret tt).

(* lines 52-114: what the loop body does with the parsed document *)
Definition validate_data (validate : ValidateFunction) (file : string)
    (data : json) : M unit :=
  check_schema validate file data ;;
  check_imageUrl data ;;
  check_projectImage data ;;
  check_studentPhoto data ;;
  check_suggested data.

(* lines 49-114: the body of  for (const file of files) *)
Definition validate_file (validate : ValidateFunction) (file : string)
    : M unit :=
  let full := path_join [projectsDir; file] in
  data <- readJSON full ;;
  validate_data validate file data.

Definition failed_message : string :=
  LF +:+ ESC +:+ "[31mValidation failed. Please fix the issues above."
  +:+ ESC +:+ "[0m".

Definition all_valid_message (n : nat) : string :=
  LF +:+ ESC +:+ "[32mAll " +:+ pretty n +:+ " project files are valid."
  +:+ ESC +:+ "[0m".

Definition no_files_message : string :=
  "No project JSON files found. Add files to src/data/projects/.".

(* async function main() *)
Definition main : M unit :=
  info ("Validating project JSON files in " +:+ projectsDir) ;;
  schema <- readJSON schemaPath ;;
  validate <- match ajv_compile schema with
              | Some f => ret f
              | None => throw SchemaCompileError
              end ;;
  files <- findProjectFiles ;;
  (if (List.length files =? 0)%nat then
     error no_files_message ;;
     process_exit 1
   else ret tt) ;;
  set_hasErrors false ;;
  for_of files (validate_file validate) ;;
  hasErrors <- get_hasErrors ;;
  if hasErrors then
    emit (console_log failed_message) ;;
    process_exit 1
  else
    emit (console_log (all_valid_message (List.length files))).

(** The process: [main().catch((e) => { console.error(e);
    process.exit(1); })].  When the promise resolves nothing is left
    to run and Node ends the process with status 0. *)
Definition run : list event * Z :=
  match main false with
  | (t, Normal _ _) => (t, 0)
  | (t, Thrown e) => (t ++ [console_error_exn e], 1)
  | (t, Exited code) => (t, code)
  end.

Definition exit_status : Z := snd run.
Definition output : list event := fst run.

End WithFileSystem.
End WithRuntime.

(** ** Notions the properties are stated with *)

(** [raise h r]: the result [r] of a computation started from a lowered
    flag, seen from a caller whose flag was [h]. *)
Definition raise {A} (h : bool) (r : list event * completion A)
    : list event * completion A :=
  (fst r, match snd r with
          | Normal a h' => Normal a (h || h')
          | c => c
          end).

(** A computation only ever raises the flag and never reads it: started
    from any flag it does what it does from a lowered one. *)
Definition accumulates {A} (m : M A) : Prop :=
  forall h, m h = raise h (m false).

(** [m1] and then [m2], the second run on its own from a lowered flag, so
    that nothing [m1] found can reach it; the flags are joined at the
    end.  Only an exception or an exit of [m1] keeps [m2] from running. *)
Definition then_independently (m1 m2 : M unit) : M unit :=
  fun h =>
    match m1 h with
    | (t1, Normal _ h1) => (t1 ++ fst (m2 false), snd (raise h1 (m2 false)))
    | r => r
    end.

Infix ">>>" := then_independently (at level 62, right associativity) : js_scope.

Definition is_normal {A} (c : completion A) : bool :=
  match c with
  | Normal _ _ => true
  | _ => false
  end.

(** The flag a computation ends with, when it completes normally. *)
Definition flag_of {A} (c : completion A) : bool :=
  match c with
  | Normal _ h => h
  | _ => false
  end.

(** The own property [key] of a document that is an object. *)
Definition field (data : json) (key : string) : option json :=
  match data with
  | JObject m => m !! key
  | _ => None
  end.

(** The characters of a string. *)
Definition has_char (c : ascii) (s : string) : Prop :=
  In c (list_ascii_of_string s).

(** In the trace of the [projectImage] check, the field name
    [studentPhoto] put for [projectImage] in the one line that echoes
    it. *)
Definition echo_studentPhoto (ev : event) : event :=
  match ev with
  | console_log line =>
      if String.prefix " - projectImage " line
      then console_log (" - studentPhoto " +:+
                        substring 16 (String.length line - 16) line)
      else ev
  | _ => ev
  end.

(** The image-field check as the specification words it: one check,
    applied to a field value, with the field name used only in the line
    that echoes the value. *)
Definition check_image_field `{Runtime} `{FileSystem} (name : string)
    (value : option json) : M unit :=
  if ToBoolean value then
    slash <- includes value "/" ;;
    path_like <- (if slash then ret true else includes value "\") ;;
    if path_like then
      set_hasErrors true ;;
      text <- template value ;;
      emit (console_log (" - " +:+ name
                         +:+ " should be a filename only, no path (got '"
                         +:+ text +:+ "')"))
    else
      imgPath <- path_join_value publicImagesDir value ;;
      found <- existsSync imgPath ;;
      if negb found then
        set_hasErrors true ;;
        text <- template value ;;
        emit (console_log (" - image not found at public/images/" +:+ text))
      else
        size <- statSync imgPath ;;
        if size >? maxBytes then
          set_hasErrors true ;;
          emit (console_log (" - image is large (" +:+ megabytes size
                             +:+ "MB). Please keep < 10MB."))
        else ret tt
  else ret tt.

(** What the schema check prints for a document. *)
Definition schema_report (validate : ValidateFunction) (file : string)
    (data : json) : list event :=
  if validate_call validate data then []
  else console_log (LF +:+ ESC +:+ "[33m" +:+ file +:+ ESC
                    +:+ "[0m schema errors:")
       :: map (fun err =>
                 console_log
                   (" - " +:+ (if String.eqb (instancePath err) ""
                               then "(root)" else instancePath err)
                    +:+ " " +:+ message err))
              (validate_errors validate data).

(** A computation that does not end the process by itself. *)
Definition never_exits {A} (m : M A) : Prop :=
  forall h c, snd (m h) <> Exited c.

(** The file names [findProjectFiles] keeps. *)
Definition eligible (names : list string) : list string :=
  List.filter (fun f => String_endsWith f ".json"
                        && negb (String.eqb f "project.schema.json")) names.

(** The validator the run obtains from the schema file, if it does. *)
Definition load_schema `{Runtime} `{FileSystem} : option ValidateFunction :=
  match file_content schemaPath with
  | Some text => match JSON_parse text with
                 | Some schema => ajv_compile schema
                 | None => None
                 end
  | None => None
  end.

(** What is thrown when the schema cannot be loaded. *)
Definition load_failure `{Runtime} `{FileSystem} : exn :=
  match file_content schemaPath with
  | Some text => match JSON_parse text with
                 | Some schema => SchemaCompileError
                 | None => SyntaxError
                 end
  | None => SystemError schemaPath
  end.

(** The first lines of every run. *)
Definition startup `{Runtime} : list event :=
  [console_log (ESC +:+ "[36mInfo:" +:+ ESC
                +:+ "[0m Validating project JSON files in " +:+ projectsDir);
   readFileSync_call schemaPath].

(** An image field the script has nothing to say about: a falsy value,
    or a string without slash or backslash that resolves to an existing
    file whose size can be read and is at most 10 MiB. *)
Definition image_in_order `{Runtime} `{FileSystem} (v : option json) : Prop :=
  ToBoolean v = false
  \/ exists s size,
       v = Some (JString s)
       /\ ~ has_char "/" s /\ ~ has_char "\" s
       /\ path_exists (path_join [publicImagesDir; s]) = true
       /\ stat_size (path_join [publicImagesDir; s]) = Some size
       /\ size <= 10 * 1024 * 1024.

Definition document_in_order `{Runtime} `{FileSystem}
    (validate : ValidateFunction) (data : json) : Prop :=
  ((exists m, data = JObject m) \/ (exists l, data = JArray l))
  /\ validate_call validate data = true
  /\ ToBoolean (field data "imageUrl") = false
  /\ image_in_order (field data "projectImage")
  /\ image_in_order (field data "studentPhoto").

Definition file_in_order `{Runtime} `{FileSystem}
    (validate : ValidateFunction) (file : string) : Prop :=
  exists text data,
    file_content (path_join [projectsDir; file]) = Some text
    /\ JSON_parse text = Some data
    /\ document_in_order validate data.

Definition run_in_order `{Runtime} `{FileSystem} : Prop :=
  exists validate names,
    load_schema = Some validate
    /\ dir_entries projectsDir = Some names
    /\ eligible names <> []
    /\ forall file, In file (eligible names) -> file_in_order validate file.

(** Full success in the words of the specification: every image field
    that is present is a bare file name of an existing file of at most
    10 MiB. *)
Definition bare_existing_image `{Runtime} `{FileSystem} (v : json) : Prop :=
  exists s size,
    v = JString s
    /\ ~ has_char "/" s /\ ~ has_char "\" s
    /\ path_exists (path_join [publicImagesDir; s]) = true
    /\ stat_size (path_join [publicImagesDir; s]) = Some size
    /\ size <= 10 * 1024 * 1024.

Definition document_passes_as_stated `{Runtime} `{FileSystem}
    (validate : ValidateFunction) (data : json) : Prop :=
  validate_call validate data = true
  /\ ToBoolean (field data "imageUrl") = false
  /\ (forall v, field data "projectImage" = Some v -> bare_existing_image v)
  /\ (forall v, field data "studentPhoto" = Some v -> bare_existing_image v).

Definition run_succeeds_as_stated `{Runtime} `{FileSystem} : Prop :=
  exists validate names,
    load_schema = Some validate
    /\ dir_entries projectsDir = Some names
    /\ eligible names <> []
    /\ forall file, In file (eligible names) ->
         exists text data,
           file_content (path_join [projectsDir; file]) = Some text
           /\ JSON_parse text = Some data
           /\ document_passes_as_stated validate data.

(** ** Concrete environments, for the examples *)

(** [path.join] on plain segments. *)
Definition posix_join (parts : list string) : string := String.concat "/" parts.

(** The text of [Math.round(size/1024/1024 * 10) / 10], computed exactly
    (the engine's doubles agree with it on every size below 2^49). *)
Definition tenths_of_MiB (size : Z) : string :=
  let n := (size * 10 + 524288) / 1048576 in
  if Z.eqb (n mod 10) 0 then pretty (n / 10)
  else pretty (n / 10) +:+ "." +:+ pretty (n mod 10).

Definition plain_number (x : spec_float) : string :=
  match x with
  | S754_zero _ => "0"
  | S754_infinity false => "Infinity"
  | S754_infinity true => "-Infinity"
  | S754_nan => "NaN"
  | S754_finite s m e =>
      (if s then "-" else "") +:+ pretty (Z.shiftl (Z.pos m) e)
  end.

Fixpoint assoc {A} (l : list (string * A)) (k : string) : option A :=
  match l with
  | [] => None
  | (k', a) :: l' => if String.eqb k k' then Some a else assoc l' k
  end.

(** A validator that accepts every document (the schema [{}]). *)
Definition accept_all : ValidateFunction :=
  {| validate_call := fun _ => true; validate_errors := fun _ => [] |}.

(** A validator that rejects every document (the schema [false]). *)
Definition reject_all : ValidateFunction :=
  {| validate_call := fun _ => false;
     validate_errors := fun _ =>
       [{| instancePath := ""; message := "boolean schema is false" |}] |}.

#[local] Instance demo_runtime (parse : list (string * json))
    (validate : ValidateFunction) : Runtime :=
  {| cwd := "/repo";
     path_join := posix_join;
     JSON_parse := assoc parse;
     ajv_compile := fun _ => Some validate;
     Number_toString := plain_number;
     megabytes := tenths_of_MiB |}.

#[local] Instance demo_disk (files : list (string * string))
    (dirs : list (string * list string)) (sizes : list (string * Z))
    : FileSystem :=
  {| file_content := assoc files;
     dir_entries := assoc dirs;
     path_exists := fun p => bool_decide (is_Some (assoc sizes p));
     stat_size := assoc sizes |}.

Definition quoted (s : string) : string := DQUOTE +:+ s +:+ DQUOTE.

(** The texts of the files used below, with what [JSON.parse] makes of
    them. *)
Definition empty_schema_text : string := "{}".
Definition empty_project_text : string := "{" +:+ quoted "projectImage" +:+ ":" +:+ quoted "" +:+ "}".
Definition empty_project : json := JObject {[ "projectImage" := JString "" ]}.

Definition demo_projects : string := "/repo/src/data/projects".
Definition demo_schema : string := "/repo/src/data/projects/project.schema.json".

(** A checkout with the schema [{}] and one project file, [a.json], whose
    text is [text] and parses to [data]; no image is on the disk. *)
Definition one_file_runtime (text : string) (data : json) : Runtime :=
  demo_runtime [(empty_schema_text, JObject ∅); (text, data)] accept_all.

Definition one_file_disk (text : string) : FileSystem :=
  demo_disk [(demo_schema, empty_schema_text);
             ("/repo/src/data/projects/a.json", text)]
            [(demo_projects, ["a.json"; "project.schema.json"])]
            [].

Definition empty_imageUrl_text : string :=
  "{" +:+ quoted "imageUrl" +:+ ":" +:+ quoted "" +:+ "}".
Definition empty_imageUrl_project : json :=
  JObject {[ "imageUrl" := JString "" ]}.

Definition old_imageUrl_project : gmap string json :=
  {[ "imageUrl" := JString "cover.png" ]}.

Definition bare_runtime : Runtime := demo_runtime [] accept_all.
Definition bare_disk : FileSystem := demo_disk [] [] [].

(** Documents and disks of the instances. *)
Definition path_images : gmap string json :=
  <[ "studentPhoto" := JString "img\me.png" ]>
    {[ "projectImage" := JString "img/cover.png" ]}.

Definition cover_only : gmap string json :=
  {[ "projectImage" := JString "cover.png" ]}.

Definition portrait_only : gmap string json :=
  {[ "studentPhoto" := JString "cover.png" ]}.

Definition empty_images : gmap string json :=
  <[ "studentPhoto" := JString "" ]> {[ "projectImage" := JString "" ]}.

Definition cover_path : string := "/repo/public/images/cover.png".

(** A disk whose only image, [cover.png], has the given size. *)
Definition cover_disk (size : Z) : FileSystem :=
  demo_disk [] [] [(cover_path, size)].

(** A checkout whose project directory holds the schema and a read-me. *)
Definition no_project_disk : FileSystem :=
  demo_disk [(demo_schema, empty_schema_text)]
            [(demo_projects, ["project.schema.json"; "README.md"])]
            [].

Definition schema_only_runtime : Runtime :=
  demo_runtime [(empty_schema_text, JObject ∅)] accept_all.

(** A document with four things wrong: it fails the schema, carries
    [imageUrl], gives a path for [projectImage] and names a missing
    [studentPhoto]; it has no [tags]. *)
Definition faulty_project : json :=
  JObject (<[ "imageUrl" := JString "cover.png" ]>
          (<[ "projectImage" := JString "img/cover.png" ]>
          (<[ "studentPhoto" := JString "missing.png" ]>
          (<[ "projectUrl" := JString "https://example.org" ]>
          {[ "githubUrl" := JString "https://example.org/src" ]})))).

(** Texts of project files and what [JSON.parse] makes of them. *)
Definition complete_text : string :=
  "{" +:+ quoted "projectUrl" +:+ ":" +:+ quoted "https://example.org" +:+ ","
  +:+ quoted "githubUrl" +:+ ":" +:+ quoted "https://example.org/src" +:+ ","
  +:+ quoted "tags" +:+ ":[]}".
Definition complete_project : json :=
  JObject (<[ "projectUrl" := JString "https://example.org" ]>
          (<[ "githubUrl" := JString "https://example.org/src" ]>
          {[ "tags" := JArray [] ]})).

Definition untagged_text : string :=
  "{" +:+ quoted "projectUrl" +:+ ":" +:+ quoted "https://example.org" +:+ ","
  +:+ quoted "githubUrl" +:+ ":" +:+ quoted "https://example.org/src" +:+ "}".
Definition untagged_project : json :=
  JObject (<[ "projectUrl" := JString "https://example.org" ]>
          {[ "githubUrl" := JString "https://example.org/src" ]}).

Definition missing_photo_text : string :=
  "{" +:+ quoted "studentPhoto" +:+ ":" +:+ quoted "missing.png" +:+ ","
  +:+ quoted "projectUrl" +:+ ":" +:+ quoted "https://example.org" +:+ ","
  +:+ quoted "githubUrl" +:+ ":" +:+ quoted "https://example.org/src" +:+ ","
  +:+ quoted "tags" +:+ ":[]}".
Definition missing_photo_project : json :=
  JObject (<[ "studentPhoto" := JString "missing.png" ]>
          (<[ "projectUrl" := JString "https://example.org" ]>
          (<[ "githubUrl" := JString "https://example.org/src" ]>
          {[ "tags" := JArray [] ]}))).

(** A checkout with the schema [{}] and two project files, [a.json] and
    [b.json], in this order; no image is on the disk. *)
Definition two_file_runtime (a : string * json) (b : string * json) : Runtime :=
  demo_runtime [(empty_schema_text, JObject ∅); a; b] accept_all.

Definition two_file_disk (a b : string) : FileSystem :=
  demo_disk [(demo_schema, empty_schema_text);
             ("/repo/src/data/projects/a.json", a);
             ("/repo/src/data/projects/b.json", b)]
            [(demo_projects, ["a.json"; "project.schema.json"; "b.json"])]
            [].

(** A checkout whose first project file, [a.json], holds the text [{], which
    [JSON.parse] rejects, and whose second, [b.json], is in order but for
    its missing [tags]. *)
Definition broken_first_runtime : Runtime :=
  demo_runtime [(empty_schema_text, JObject ∅);
                (untagged_text, untagged_project)] accept_all.

Definition broken_first_disk : FileSystem := two_file_disk "{" untagged_text.

(** A document whose [projectImage] is [true] and whose [studentPhoto]
    names a missing file. *)
Definition mistyped_project : json :=
  JObject (<[ "projectImage" := JBool true ]>
          {[ "studentPhoto" := JString "missing.png" ]}).

(** ** Notions for the properties of the rest of the script *)

(** A file-system call among the events. *)
Definition is_fs_call (ev : event) : bool :=
  match ev with
  | readFileSync_call _ | readdirSync_call _
  | existsSync_call _ | statSync_call _ => true
  | _ => false
  end.

(** The file-system calls of a trace, in order. *)
Definition fs_calls (t : list event) : list event := List.filter is_fs_call t.

(** The paths a trace passes to [fs.readFileSync], in order. *)
Definition files_read (t : list event) : list string :=
  flat_map (fun ev => match ev with
                      | readFileSync_call p => [p]
                      | _ => []
                      end) t.

(** A computation that reads no file. *)
Definition reads_nothing {A} (m : M A) : Prop :=
  forall h, files_read (fst (m h)) = [].

(** The line the schema check prints for one violation. *)
Definition violation_line (err : ErrorObject) : event :=
  console_log (" - " +:+ (if String.eqb (instancePath err) ""
                          then "(root)" else instancePath err)
               +:+ " " +:+ message err).

(** The three suggestion lines. *)
Definition all_suggestions : list event :=
  [console_log (suggestion_message "projectUrl");
   console_log (suggestion_message "githubUrl");
   console_log (suggestion_message "tags")].

(** An event of a run that found nothing wrong: a file-system call or a
    suggestion. *)
Definition harmless (ev : event) : Prop :=
  is_fs_call ev = true
  \/ exists key, In key suggested /\ ev = console_log (suggestion_message key).

(** A computation that, when it ends with the flag still down, has
    produced only harmless events. *)
Definition quiet_when_lowered {A} (m : M A) : Prop :=
  forall b, snd (m false) = Normal b false -> Forall harmless (fst (m false)).

(** Environments of the instances of the further properties. *)

(** A runtime whose schema compiler rejects every schema. *)
Definition rejecting_runtime : Runtime :=
  {| cwd := "/repo";
     path_join := posix_join;
     JSON_parse := assoc [(empty_schema_text, JObject ∅)];
     ajv_compile := fun _ => None;
     Number_toString := plain_number;
     megabytes := tenths_of_MiB |}.

(** A checkout with nothing but a schema file holding [text]. *)
Definition schema_disk (text : string) : FileSystem :=
  demo_disk [(demo_schema, text)] [] [].

(** A disk on which every path exists and no size can be read. *)
Definition vanishing_disk : FileSystem :=
  {| file_content := fun _ => None;
     dir_entries := fun _ => None;
     path_exists := fun _ => true;
     stat_size := fun _ => None |}.

(** A checkout whose first project file is in order but for its missing
    [tags] and whose second holds the text [{]. *)
Definition broken_second_runtime : Runtime :=
  demo_runtime [(empty_schema_text, JObject ∅);
                (untagged_text, untagged_project)] accept_all.

Definition broken_second_disk : FileSystem := two_file_disk untagged_text "{".

(** A checkout that lists [a.json] and [b.json] but holds only the
    first. *)
Definition missing_second_disk : FileSystem :=
  demo_disk [(demo_schema, empty_schema_text);
             ("/repo/src/data/projects/a.json", untagged_text)]
            [(demo_projects, ["a.json"; "project.schema.json"; "b.json"])]
            [].


Definition both_covers : gmap string json :=
  <[ "studentPhoto" := JString "cover.png" ]>
    {[ "projectImage" := JString "cover.png" ]}.

(** ** Notions and environments for the path and suggestion properties *)

(** The checks of a document that come before the suggestions
    (lines 52-106). *)
Definition checks_before_suggestions `{Runtime} `{FileSystem}
    (validate : ValidateFunction) (file : string) (data : json) : M unit :=
  check_schema validate file data ;;
  check_imageUrl data ;;
  check_projectImage data ;;
  check_studentPhoto data.

(** The suggestion lines a document is due: one for each suggested key it
    does not have, in the order of the keys. *)
Definition suggestion_lines (data : json) : list event :=
  flat_map (fun key => if bool_decide (field data key = None)
                       then [console_log (suggestion_message key)]
                       else [])
           suggested.

(** A document whose [projectImage] is [true] and whose [studentPhoto] is
    a path, and its text. *)
Definition late_path_text : string :=
  "{" +:+ quoted "projectImage" +:+ ":true,"
  +:+ quoted "studentPhoto" +:+ ":" +:+ quoted "img/me.png" +:+ "}".
Definition late_path_project : json :=
  JObject (<[ "projectImage" := JBool true ]>
          {[ "studentPhoto" := JString "img/me.png" ]}).

(** The number 5 as a double, and the document that is this number. *)
Definition five : spec_float := S754_finite false 5629499534213120 (-50).
Definition five_text : string := "5".
Definition five_project : json := JNumber five.

(** An array document. *)
Definition list_project : json := JArray [JString "a"; JString "b"].

(** * Properties *)

(** ** Strings *)

Lemma String_includes_char (c : ascii) (s : string) :
  String_includes s (String c "") = true <-> has_char c s.
Proof.
  unfold has_char. induction s as [|a s IH]; simpl.
  - split; [discriminate | tauto].
  - destruct (Ascii.ascii_dec c a) as [->|Hne].
    + destruct s; simpl; split; auto.
    + rewrite IH. split; [tauto|]. intros [Heq|Hin]; [congruence | assumption].
Qed.

Lemma has_char_nonempty (c : ascii) (s : string) :
  has_char c s -> String.eqb s "" = false.
Proof. destruct s; simpl; [intros [] | reflexivity]. Qed.

(** ** Sequencing *)

Lemma bind_ret {A B} (a : A) (f : A -> M B) (h : bool) :
  bind (ret a) f h = f a h.
Proof. unfold bind, ret. cbn [app]. now destruct (f a h). Qed.

Lemma bind_emit {B} (ev : event) (f : unit -> M B) (h : bool) :
  bind (emit ev) f h = (ev :: fst (f tt h), snd (f tt h)).
Proof. reflexivity. Qed.

Lemma bind_set {B} (b : bool) (f : unit -> M B) (h : bool) :
  bind (set_hasErrors b) f h = f tt b.
Proof. unfold bind, set_hasErrors. cbn [app]. now destruct (f tt b). Qed.

Lemma bind_normal {A B} (m : M A) (f : A -> M B) (h h1 : bool)
    (t : list event) (a : A) :
  m h = (t, Normal a h1) -> bind m f h = (t ++ fst (f a h1), snd (f a h1)).
Proof. intros E. unfold bind. now rewrite E. Qed.

Lemma bind_assoc {A B C} (m : M A) (f : A -> M B) (g : B -> M C) (h : bool) :
  bind (bind m f) g h = bind m (fun a => bind (f a) g) h.
Proof.
  unfold bind. destruct (m h) as [t [a h1|e|c]]; try reflexivity.
  cbn [fst snd]. destruct (f a h1) as [t' [b h2|e|c]]; cbn [fst snd];
    try reflexivity.
  now rewrite app_assoc.
Qed.

(** ** The flag is only ever raised *)

Lemma accumulates_ret {A} (a : A) : accumulates (ret a).
Proof. intros h. unfold raise, ret; simpl. now rewrite orb_false_r. Qed.

Lemma accumulates_emit (ev : event) : accumulates (emit ev).
Proof. intros h. unfold raise, emit; simpl. now rewrite orb_false_r. Qed.

Lemma accumulates_throw {A} (e : exn) : accumulates (@throw A e).
Proof. intros h. reflexivity. Qed.

Lemma accumulates_exit {A} (c : Z) : accumulates (@process_exit A c).
Proof. intros h. reflexivity. Qed.

Lemma accumulates_set : accumulates (set_hasErrors true).
Proof. intros h. unfold raise, set_hasErrors; simpl. now rewrite orb_true_r. Qed.

Lemma accumulates_bind {A B} (m : M A) (f : A -> M B) :
  accumulates m -> (forall a, accumulates (f a)) -> accumulates (bind m f).
Proof.
  intros Hm Hf h. unfold bind. rewrite (Hm h).
  destruct (m false) as [t [a h0|e|c]]; simpl; try reflexivity.
  rewrite (Hf a (h || h0)), (Hf a h0). unfold raise; simpl.
  destruct (snd (f a false)); simpl; try reflexivity.
  now rewrite orb_assoc.
Qed.

Lemma accumulates_if {A} (b : bool) (m1 m2 : M A) :
  accumulates m1 -> accumulates m2 -> accumulates (if b then m1 else m2).
Proof. now destruct b. Qed.

Lemma accumulates_for_of {A} (l : list A) (body : A -> M unit) :
  (forall x, accumulates (body x)) -> accumulates (for_of l body).
Proof.
  intros Hb. induction l as [|x l IH]; simpl.
  - apply accumulates_ret.
  - apply accumulates_bind; auto.
Qed.

Lemma accumulates_get_property (data : json) (key : string) :
  accumulates (get_property data key).
Proof.
  destruct data; simpl;
    first [apply accumulates_ret | apply accumulates_throw].
Qed.

Lemma accumulates_has_property (key : string) (data : json) :
  accumulates (has_property key data).
Proof.
  destruct data; simpl;
    first [apply accumulates_ret | apply accumulates_throw].
Qed.

Lemma accumulates_includes (v : option json) (pat : string) :
  accumulates (includes v pat).
Proof.
  destruct v as [[]|]; simpl;
    first [apply accumulates_ret | apply accumulates_throw].
Qed.

Create HintDb flag discriminated.
#[local] Hint Resolve accumulates_ret accumulates_emit accumulates_set
  accumulates_bind accumulates_if accumulates_for_of accumulates_get_property
  accumulates_has_property accumulates_includes : flag.
#[local] Hint Extern 1 (accumulates (throw _)) => apply accumulates_throw : flag.
#[local] Hint Extern 1 (accumulates (process_exit _)) => apply accumulates_exit : flag.
#[local] Hint Extern 2 (accumulates (match ?x with _ => _ end)) => destruct x : flag.

(** Sequencing two computations that only raise the flag is running the
    second on its own. *)
Lemma bind_then_independently (m1 m2 : M unit) (h : bool) :
  accumulates m2 -> bind m1 (fun _ => m2) h = then_independently m1 m2 h.
Proof.
  intros H2. unfold bind, then_independently.
  destruct (m1 h) as [t [[] h1|e|c]]; try reflexivity.
  rewrite (H2 h1). reflexivity.
Qed.

(** A sequence ends with a lowered flag exactly when both parts do. *)
Lemma bind_lowered {A B} (m : M A) (f : A -> M B) (h : bool) (b : B) :
  (forall a, accumulates (f a)) ->
  snd (bind m f h) = Normal b false <->
  exists a, snd (m h) = Normal a false /\ snd (f a false) = Normal b false.
Proof.
  intros Hf. unfold bind. destruct (m h) as [t [a h1|e|c]]; simpl.
  - split.
    + intros Hn. rewrite (Hf a h1) in Hn. unfold raise in Hn; simpl in Hn.
      destruct (snd (f a false)) as [b' h2|e|c] eqn:E; try discriminate.
      injection Hn as -> Hh. apply orb_false_elim in Hh as [-> ->].
      exists a. rewrite E. auto.
    + intros (a' & Ha & Hb). injection Ha as -> ->. exact Hb.
  - split; [discriminate | intros (a & Ha & _); discriminate].
  - split; [discriminate | intros (a & Ha & _); discriminate].
Qed.

Section Properties.
Context `{Runtime} `{FileSystem}.

Lemma accumulates_template (v : option json) : accumulates (template v).
Proof. unfold template. auto with flag. Qed.

Lemma accumulates_path_join_value (dir : string) (v : option json) :
  accumulates (path_join_value dir v).
Proof.
  destruct v as [[]|]; simpl;
    first [apply accumulates_ret | apply accumulates_throw].
Qed.

Lemma accumulates_existsSync (p : string) : accumulates (existsSync p).
Proof. unfold existsSync. auto with flag. Qed.

Lemma accumulates_statSync (p : string) : accumulates (statSync p).
Proof. unfold statSync. auto with flag. Qed.

Lemma accumulates_readJSON (p : string) : accumulates (readJSON p).
Proof. unfold readJSON, readFileSync. auto 10 with flag. Qed.

#[local] Hint Resolve accumulates_template accumulates_path_join_value
  accumulates_existsSync accumulates_statSync accumulates_readJSON : flag.

Lemma accumulates_check_schema (validate : ValidateFunction) (file : string)
    (data : json) :
  accumulates (check_schema validate file data).
Proof. unfold check_schema. auto 10 with flag. Qed.

Lemma accumulates_check_imageUrl (data : json) :
  accumulates (check_imageUrl data).
Proof. unfold check_imageUrl. auto 10 with flag. Qed.

Lemma accumulates_check_projectImage (data : json) :
  accumulates (check_projectImage data).
Proof. unfold check_projectImage. auto 20 with flag. Qed.

Lemma accumulates_check_studentPhoto (data : json) :
  accumulates (check_studentPhoto data).
Proof. unfold check_studentPhoto. auto 20 with flag. Qed.

Lemma accumulates_check_suggested (data : json) :
  accumulates (check_suggested data).
Proof. unfold check_suggested. auto 10 with flag. Qed.

#[local] Hint Resolve accumulates_check_schema accumulates_check_imageUrl
  accumulates_check_projectImage accumulates_check_studentPhoto
  accumulates_check_suggested : flag.

Lemma accumulates_validate_data (validate : ValidateFunction) (file : string)
    (data : json) :
  accumulates (validate_data validate file data).
Proof. unfold validate_data. auto 10 with flag. Qed.

Lemma accumulates_validate_file (validate : ValidateFunction) (file : string) :
  accumulates (validate_file validate file).
Proof.
  unfold validate_file. auto using accumulates_validate_data with flag.
Qed.

(** Once raised, the flag is not lowered. *)
Lemma raised_stays {A} (m : M A) (u : A) :
  accumulates m -> snd (m true) <> Normal u false.
Proof.
  intros Hm. rewrite (Hm true). unfold raise; simpl.
  destruct (snd (m false)); discriminate.
Qed.

Lemma for_of_emit {A} (l : list A) (line : A -> event) (h : bool) :
  for_of l (fun x => emit (line x)) h = (map line l, Normal tt h).
Proof.
  induction l as [|x l IH]; simpl; [reflexivity|].
  rewrite bind_emit, IH. reflexivity.
Qed.

(** ** The image-field checks *)

(** One step of symbolic execution: the monad and the primitives are
    unfolded, and what has become concrete is computed. *)
Ltac run_check :=
  cbv beta iota zeta delta
    [check_imageUrl check_projectImage check_studentPhoto bind get_property
     includes template path_join_value existsSync statSync emit
     set_hasErrors ret throw fst snd app ToString negb].

(** C10 -- An image field that is present with a falsy value (the empty
    string in particular) is skipped: the check of [projectImage], and
    likewise of [studentPhoto], prints nothing, calls nothing of the file
    system and leaves the flag as it was. *)
Theorem C10_falsy_image_field_skipped (m : gmap string json) (v : json)
    (h : bool) :
  ToBoolean (Some v) = false ->
  (m !! "projectImage" = Some v ->
   check_projectImage (JObject m) h = ([], Normal tt h))
  /\ (m !! "studentPhoto" = Some v ->
      check_studentPhoto (JObject m) h = ([], Normal tt h)).
Proof.
  intros Hv. split; intros Hm; run_check; rewrite Hm, Hv; reflexivity.
Qed.

(** A string with a slash or a backslash in an image field, for the check
    alone: the flag is raised and the one line printed is the whole
    trace. *)
Lemma path_in_image_field_alone (m : gmap string json) (s : string) (h : bool) :
  has_char "/" s \/ has_char "\" s ->
  (m !! "projectImage" = Some (JString s) ->
   check_projectImage (JObject m) h =
     ([console_log (" - projectImage should be a filename only, no path (got '"
                    +:+ s +:+ "')")],
      Normal tt true))
  /\ (m !! "studentPhoto" = Some (JString s) ->
      check_studentPhoto (JObject m) h =
        ([console_log (" - studentPhoto should be a filename only, no path (got '"
                       +:+ s +:+ "')")],
         Normal tt true)).
Proof.
  intros Hs.
  assert (Hne : String.eqb s "" = false)
    by (destruct Hs as [Hs|Hs]; exact (has_char_nonempty _ _ Hs)).
  assert (Hinc : (if String_includes s "/" then true
                  else String_includes s "\") = true).
  { destruct Hs as [Hs|Hs]; apply String_includes_char in Hs; rewrite Hs;
      [reflexivity | now destruct (String_includes s "/")]. }
  split; intros Hm; run_check; rewrite Hm; cbn [ToBoolean]; rewrite Hne;
    run_check; destruct (String_includes s "/") eqn:E1;
    try rewrite Hinc; reflexivity.
Qed.

(** Where an image name that is a plain file name leads: the two
    file-system calls on the resolved path, then the size test. *)
Lemma plain_image_name (s : string) :
  String.eqb s "" = false -> ~ has_char "/" s -> ~ has_char "\" s ->
  ToBoolean (Some (JString s)) = true
  /\ String_includes s "/" = false /\ String_includes s "\" = false.
Proof.
  intros Hne H1 H2. cbn [ToBoolean]. rewrite Hne. repeat split.
  - destruct (String_includes s "/") eqn:E; [|reflexivity].
    apply String_includes_char in E. contradiction.
  - destruct (String_includes s "\") eqn:E; [|reflexivity].
    apply String_includes_char in E. contradiction.
Qed.

(** C6 -- For an image file that exists, the size test raises the flag
    (and prints the "image is large" line) exactly when the size in bytes
    is more than 10 * 1024 * 1024: it does at 10 MiB + 1 byte and does not
    at 10 MiB.  The same holds for [projectImage] and [studentPhoto]. *)
Theorem C6_size_limit_is_strict (m : gmap string json) (s : string)
    (size : Z) (h : bool) :
  let p := path_join [publicImagesDir; s] in
  let too_large := bool_decide (10 * 1024 * 1024 < size) in
  let report :=
    [existsSync_call p; statSync_call p] ++
    (if too_large
     then [console_log (" - image is large (" +:+ megabytes size
                        +:+ "MB). Please keep < 10MB.")]
     else []) in
  String.eqb s "" = false -> ~ has_char "/" s -> ~ has_char "\" s ->
  path_exists p = true ->
  stat_size p = Some size ->
  (m !! "projectImage" = Some (JString s) ->
   check_projectImage (JObject m) h = (report, Normal tt (h || too_large)))
  /\ (m !! "studentPhoto" = Some (JString s) ->
      check_studentPhoto (JObject m) h = (report, Normal tt (h || too_large)))
  /\ (size = 10 * 1024 * 1024 + 1 -> too_large = true)
  /\ (size = 10 * 1024 * 1024 -> too_large = false).
Proof.
  intros p too_large report Hne H1 H2 Hex Hst.
  destruct (plain_image_name s Hne H1 H2) as (Ht & Hi1 & Hi2).
  assert (Hcmp : (size >? maxBytes) = too_large).
  { unfold too_large, maxBytes. rewrite Z.gtb_ltb.
    destruct (Z.ltb_spec (10 * 1024 * 1024) size) as [Hlt|Hge].
    - now rewrite bool_decide_eq_true_2.
    - rewrite bool_decide_eq_false_2; [reflexivity | lia]. }
  repeat split.
  - intros Hm. run_check. rewrite Hm, Ht, Hi1, Hi2. fold p.
    rewrite Hex, Hst, Hcmp. unfold report.
    destruct too_large; run_check; now rewrite ?orb_true_r, ?orb_false_r.
  - intros Hm. run_check. rewrite Hm, Ht, Hi1, Hi2. fold p.
    rewrite Hex, Hst, Hcmp. unfold report.
    destruct too_large; run_check; now rewrite ?orb_true_r, ?orb_false_r.
  - intros ->. reflexivity.
  - intros ->. reflexivity.
Qed.

(** ** One check for both image fields *)

Lemma check_projectImage_generic (data : json) (h : bool) :
  check_projectImage data h =
  (v <- get_property data "projectImage" ;; check_image_field "projectImage" v) h.
Proof. reflexivity. Qed.

Lemma check_studentPhoto_generic (data : json) (h : bool) :
  check_studentPhoto data h =
  (v <- get_property data "studentPhoto" ;; check_image_field "studentPhoto" v) h.
Proof. reflexivity. Qed.

Lemma substring_all (s : string) : substring 0 (String.length s) s = s.
Proof. induction s as [|a s IH]; simpl; [reflexivity | now rewrite IH]. Qed.

Lemma echo_path_line (rest : string) :
  echo_studentPhoto (console_log (" - projectImage " +:+ rest)) =
  console_log (" - studentPhoto " +:+ rest).
Proof.
  unfold echo_studentPhoto.
  replace (String.prefix " - projectImage " (" - projectImage " +:+ rest))
    with true by (destruct rest; reflexivity).
  simpl. rewrite Nat.sub_0_r, substring_all.
  reflexivity.
Qed.

Lemma echo_field_line (rest : string) :
  echo_studentPhoto
    (console_log (" - " +:+ "projectImage"
                  +:+ " should be a filename only, no path (got '" +:+ rest)) =
  console_log (" - " +:+ "studentPhoto"
               +:+ " should be a filename only, no path (got '" +:+ rest).
Proof.
  exact (echo_path_line ("should be a filename only, no path (got '" +:+ rest)).
Qed.

Lemma echo_not_found_line (text : string) :
  echo_studentPhoto
    (console_log (" - image not found at public/images/" +:+ text)) =
  console_log (" - image not found at public/images/" +:+ text).
Proof. reflexivity. Qed.

Lemma echo_large_line (text : string) :
  echo_studentPhoto (console_log (" - image is large (" +:+ text)) =
  console_log (" - image is large (" +:+ text).
Proof. reflexivity. Qed.

Ltac run_field :=
  cbv beta iota zeta delta
    [bind includes template path_join_value existsSync statSync emit
     set_hasErrors ret throw fst snd app negb map].

Ltac split_conditions :=
  repeat (run_field;
          match goal with
          | |- context [String_includes ?a ?b] =>
              destruct (String_includes a b) eqn:?
          | |- context [existsb ?f ?l] => destruct (existsb f l) eqn:?
          | |- context [ToString ?j] => destruct (ToString j) eqn:?
          | |- context [path_exists ?p] => destruct (path_exists p) eqn:?
          | |- context [stat_size ?p] => destruct (stat_size p) eqn:?
          | |- context [Z.gtb ?a ?b] => destruct (Z.gtb a b) eqn:?
          end).

Lemma check_image_field_names (v : option json) (h : bool) :
  snd (check_image_field "studentPhoto" v h) =
    snd (check_image_field "projectImage" v h)
  /\ fst (check_image_field "studentPhoto" v h) =
       map echo_studentPhoto (fst (check_image_field "projectImage" v h)).
Proof.
  unfold check_image_field.
  destruct (ToBoolean v); [|split; reflexivity].
  destruct v as [[| b | x | s | l | mm]|]; split_conditions; run_field;
    (split; [reflexivity|]);
    rewrite ?echo_field_line, ?echo_not_found_line, ?echo_large_line;
    reflexivity.
Qed.

(** C9 -- The check of [studentPhoto] is the check of [projectImage]: on
    the same field value and the same disk the two complete the same way
    (the flag is raised under the same conditions) and produce the same
    events, but for the field name in the line that echoes the value. *)
Theorem C9_studentPhoto_checked_as_projectImage (m1 m2 : gmap string json)
    (h : bool) :
  m2 !! "studentPhoto" = m1 !! "projectImage" ->
  outcome (check_studentPhoto (JObject m2) h) =
    outcome (check_projectImage (JObject m1) h)
  /\ trace (check_studentPhoto (JObject m2) h) =
       map echo_studentPhoto (trace (check_projectImage (JObject m1) h)).
Proof.
  intros Hv. unfold outcome, trace.
  rewrite check_studentPhoto_generic, check_projectImage_generic.
  unfold bind, get_property, ret. rewrite Hv. cbn [fst snd app].
  apply check_image_field_names.
Qed.

(** ** The schema check and the renamed field *)

(** The schema check always completes: it prints its report and raises
    the flag when the verdict is negative. *)
Lemma check_schema_completes (validate : ValidateFunction) (file : string)
    (data : json) (h : bool) :
  check_schema validate file data h =
  (schema_report validate file data,
   Normal tt (h || negb (validate_call validate data))).
Proof.
  unfold check_schema, schema_report.
  destruct (validate_call validate data); cbn [negb].
  - unfold ret. now rewrite orb_false_r.
  - rewrite bind_set, bind_emit, for_of_emit. cbn [fst snd].
    now rewrite orb_true_r.
Qed.

Lemma truthy_imageUrl_flagged (m : gmap string json) (h : bool) :
  ToBoolean (m !! "imageUrl") = true ->
  check_imageUrl (JObject m) h = ([console_log renamed_message], Normal tt true).
Proof. intros Hv. run_check. rewrite Hv. reflexivity. Qed.

Lemma truthy_imageUrl_in_file (validate : ValidateFunction) (file : string)
    (m : gmap string json) (h : bool) :
  ToBoolean (m !! "imageUrl") = true ->
  (exists rest,
     trace (validate_data validate file (JObject m) h) =
     schema_report validate file (JObject m)
     ++ console_log renamed_message :: rest)
  /\ forall u, outcome (validate_data validate file (JObject m) h) <> Normal u false.
Proof.
  intros Hv.
  assert (E : validate_data validate file (JObject m) h =
              (schema_report validate file (JObject m)
               ++ console_log renamed_message
                  :: fst ((check_projectImage (JObject m) ;;
                           check_studentPhoto (JObject m) ;;
                           check_suggested (JObject m)) true),
               snd ((check_projectImage (JObject m) ;;
                     check_studentPhoto (JObject m) ;;
                     check_suggested (JObject m)) true))).
  { unfold validate_data.
    rewrite (bind_normal _ _ _ _ _ _ (check_schema_completes _ _ _ _)).
    rewrite (bind_normal _ _ _ _ _ _ (truthy_imageUrl_flagged m _ Hv)).
    reflexivity. }
  unfold trace, outcome. rewrite E. cbn [fst snd]. split.
  - eexists. reflexivity.
  - intros u. apply raised_stays. auto 10 with flag.
Qed.

(** C3 (amended) -- A document whose [imageUrl] has a truthy value
    (anything but an absent key, [null], [false], zero and the empty
    string) is marked failed and gets the rename instruction: the check
    raises the flag and prints the line, the line follows the schema report
    in what the file prints, and the file never ends with a lowered
    flag. *)
Theorem C3_truthy_imageUrl_reported (validate : ValidateFunction)
    (file : string) (m : gmap string json) (h : bool) :
  ToBoolean (m !! "imageUrl") = true ->
  check_imageUrl (JObject m) h = ([console_log renamed_message], Normal tt true)
  /\ (exists rest,
        trace (validate_data validate file (JObject m) h) =
        schema_report validate file (JObject m)
        ++ console_log renamed_message :: rest)
  /\ forall u, outcome (validate_data validate file (JObject m) h) <> Normal u false.
Proof.
  intros Hv. split.
  - exact (truthy_imageUrl_flagged m h Hv).
  - exact (truthy_imageUrl_in_file validate file m h Hv).
Qed.

(** C4 -- A document whose [imageUrl] is a non-empty string raises the
    flag and gets the rename instruction, whatever the schema validator
    says of the document: the statement holds for every validator, and the
    line comes right after the schema report, empty or not. *)
Theorem C4_nonempty_imageUrl_flagged (validate : ValidateFunction)
    (file : string) (m : gmap string json) (s : string) (h : bool) :
  m !! "imageUrl" = Some (JString s) ->
  s <> "" ->
  check_imageUrl (JObject m) h = ([console_log renamed_message], Normal tt true)
  /\ (exists rest,
        trace (validate_data validate file (JObject m) h) =
        trace (check_schema validate file (JObject m) h)
        ++ console_log renamed_message :: rest)
  /\ forall u, outcome (validate_data validate file (JObject m) h) <> Normal u false.
Proof.
  intros Hm Hs.
  assert (Hv : ToBoolean (m !! "imageUrl") = true).
  { rewrite Hm. cbn [ToBoolean]. destruct (String.eqb_spec s ""); [contradiction | reflexivity]. }
  rewrite check_schema_completes. unfold trace at 2. cbn [fst]. split.
  - exact (truthy_imageUrl_flagged m h Hv).
  - exact (truthy_imageUrl_in_file validate file m h Hv).
Qed.

(** ** The run *)

Lemma never_exits_bind {A B} (m : M A) (f : A -> M B) :
  never_exits m -> (forall a, never_exits (f a)) -> never_exits (bind m f).
Proof.
  intros Hm Hf h c. unfold bind. specialize (Hm h).
  destruct (m h) as [t [a h1|e|c']]; cbn [snd] in *.
  - apply Hf.
  - discriminate.
  - intros _. exact (Hm c' eq_refl).
Qed.

Lemma never_exits_for_of {A} (l : list A) (body : A -> M unit) :
  (forall x, never_exits (body x)) -> never_exits (for_of l body).
Proof.
  intros Hb. induction l as [|x l IH]; simpl.
  - intros h c. discriminate.
  - apply never_exits_bind; auto.
Qed.

Ltac no_exit :=
  repeat first
    [ apply never_exits_bind; [|intros ?]
    | apply never_exits_for_of; intros ?
    | match goal with
      | |- never_exits (if ?b then _ else _) => destruct b
      | |- never_exits (match ?x with _ => _ end) => destruct x
      | |- never_exits _ => intros ? ?; discriminate
      end ].

Lemma never_exits_validate_file (validate : ValidateFunction) (file : string) :
  never_exits (validate_file validate file).
Proof.
  unfold validate_file, validate_data, readJSON, readFileSync, check_schema,
    check_imageUrl, check_projectImage, check_studentPhoto, check_suggested,
    get_property, has_property, includes, template, path_join_value,
    existsSync, statSync.
  no_exit.
Qed.

(** A loop ends with a lowered flag exactly when every turn does. *)
Lemma for_of_lowered {A} (l : list A) (body : A -> M unit) :
  (forall x, accumulates (body x)) ->
  snd (for_of l body false) = Normal tt false <->
  forall x, In x l -> snd (body x false) = Normal tt false.
Proof.
  intros Hb. induction l as [|x l IH]; simpl.
  - split; [intros _ y [] | reflexivity].
  - rewrite bind_lowered by (intros; apply accumulates_for_of; auto).
    split.
    + intros ([] & Hx & Hl) y [<-|Hy]; [assumption|].
      now apply IH.
    + intros Hall. exists tt. split; [auto|]. apply IH. auto.
Qed.

Ltac run_main :=
  unfold run, main;
  cbv beta iota zeta delta
    [bind info error readJSON readFileSync findProjectFiles readdirSync emit
     ret throw process_exit set_hasErrors get_hasErrors fst snd app].

Lemma run_load_failure :
  load_schema = None ->
  run = (startup ++ [console_error_exn load_failure], 1).
Proof.
  unfold load_schema, load_failure, startup. run_main.
  destruct (file_content schemaPath) as [text|]; [|reflexivity].
  destruct (JSON_parse text) as [schema|]; [|reflexivity].
  destruct (ajv_compile schema); [discriminate | reflexivity].
Qed.

Lemma run_listing_failure (validate : ValidateFunction) :
  load_schema = Some validate ->
  dir_entries projectsDir = None ->
  run = (startup ++ [readdirSync_call projectsDir;
                     console_error_exn (SystemError projectsDir)], 1).
Proof.
  unfold load_schema, startup. run_main.
  destruct (file_content schemaPath) as [text|]; [|discriminate].
  destruct (JSON_parse text) as [schema|]; [|discriminate].
  intros -> ->. reflexivity.
Qed.

Lemma run_no_files (validate : ValidateFunction) (names : list string) :
  load_schema = Some validate ->
  dir_entries projectsDir = Some names ->
  eligible names = [] ->
  run = (startup ++ [readdirSync_call projectsDir;
                     console_error (ESC +:+ "[31mError:" +:+ ESC +:+ "[0m "
                                    +:+ no_files_message)], 1).
Proof.
  unfold load_schema, startup. run_main.
  destruct (file_content schemaPath) as [text|]; [|discriminate].
  destruct (JSON_parse text) as [schema|]; [|discriminate].
  intros -> -> Hnone. fold (eligible names). rewrite Hnone. reflexivity.
Qed.

Lemma run_files (validate : ValidateFunction) (names : list string) :
  load_schema = Some validate ->
  dir_entries projectsDir = Some names ->
  eligible names <> [] ->
  run =
  let r := for_of (eligible names) (validate_file validate) false in
  match snd r with
  | Normal _ false =>
      (startup ++ readdirSync_call projectsDir :: fst r
       ++ [console_log (all_valid_message (List.length (eligible names)))], 0)
  | Normal _ true =>
      (startup ++ readdirSync_call projectsDir :: fst r
       ++ [console_log failed_message], 1)
  | Thrown e =>
      (startup ++ readdirSync_call projectsDir :: fst r
       ++ [console_error_exn e], 1)
  | Exited c => (startup ++ readdirSync_call projectsDir :: fst r, c)
  end.
Proof.
  unfold load_schema, startup. run_main.
  destruct (file_content schemaPath) as [text|]; [|discriminate].
  destruct (JSON_parse text) as [schema|]; [|discriminate].
  intros -> -> Hsome. fold (eligible names).
  destruct (eligible names) as [|f files] eqn:E; [contradiction|].
  cbn [List.length Nat.eqb].
  destruct (for_of (f :: files) (validate_file validate) false)
    as [t [[] [|]|e|c]]; cbn [fst snd app]; rewrite ?app_nil_r; reflexivity.
Qed.

(** The status is never anything but 0 or 1. *)
Lemma exit_status_binary : exit_status = 0 \/ exit_status = 1.
Proof.
  unfold exit_status.
  destruct load_schema as [validate|] eqn:Hload;
    [|rewrite run_load_failure by assumption; auto].
  destruct (dir_entries projectsDir) as [names|] eqn:Hdir;
    [|rewrite (run_listing_failure validate) by assumption; auto].
  destruct (eligible names) as [|f files] eqn:E;
    [rewrite (run_no_files validate names) by assumption; auto|].
  rewrite (run_files validate names) by (try assumption; now rewrite E).
  cbv zeta. rewrite E.
  pose proof (never_exits_for_of (f :: files) (validate_file validate)
                (never_exits_validate_file validate) false) as Hne.
  destruct (snd (for_of (f :: files) (validate_file validate) false))
    as [[] [|]|e|c]; cbn [snd]; auto.
  exfalso. exact (Hne c eq_refl).
Qed.

(** ** When a document leaves the flag down *)

Lemma get_property_field (data : json) (key : string) (h : bool) :
  data <> JNull -> get_property data key h = ([], Normal (field data key) h).
Proof. destruct data; intros Hd; try reflexivity. contradiction. Qed.

Lemma check_schema_lowered (validate : ValidateFunction) (file : string)
    (data : json) :
  snd (check_schema validate file data false) = Normal tt false <->
  validate_call validate data = true.
Proof.
  rewrite check_schema_completes. cbn [snd orb].
  destruct (validate_call validate data); cbn [negb]; split;
    intros; try reflexivity; discriminate.
Qed.

Lemma check_imageUrl_lowered (data : json) :
  snd (check_imageUrl data false) = Normal tt false <->
  data <> JNull /\ ToBoolean (field data "imageUrl") = false.
Proof.
  assert (Hnull : data = JNull \/ data <> JNull)
    by (destruct data; (now left) || (right; discriminate)).
  destruct Hnull as [->|Hd].
  - split; [discriminate | intros [[] _]; reflexivity].
  - unfold check_imageUrl.
    rewrite (bind_normal _ _ _ _ _ _ (get_property_field data _ _ Hd)).
    destruct (ToBoolean (field data "imageUrl")); cbn [fst snd app];
      split; try discriminate; try tauto.
    intros [_ Hf]. discriminate.
Qed.

Lemma check_image_field_lowered (name : string) (v : option json) :
  snd (check_image_field name v false) = Normal tt false <-> image_in_order v.
Proof.
  unfold check_image_field, image_in_order.
  destruct (ToBoolean v) eqn:Ht; [|split; [now left | reflexivity]].
  destruct v as [[| b | x | s | l | mm]|];
    try (split_conditions;
         (split;
          [discriminate
          | intros [Hf|(s' & size & Hv & _)];
            [discriminate Hf | discriminate Hv]])).
  run_field.
  destruct (String_includes s "/") eqn:E1.
  { split; [discriminate|].
    intros [Hf|(s' & size & Hv & H1 & _)]; [discriminate|].
    injection Hv as <-. apply String_includes_char in E1. contradiction. }
  destruct (String_includes s "\") eqn:E2.
  { split; [discriminate|].
    intros [Hf|(s' & size & Hv & _ & H2 & _)]; [discriminate|].
    injection Hv as <-. apply String_includes_char in E2. contradiction. }
  destruct (path_exists (path_join [publicImagesDir; s])) eqn:E3.
  2:{ split; [discriminate|].
      intros [Hf|(s' & size & Hv & _ & _ & Hex & _)]; [discriminate|].
      injection Hv as <-. congruence. }
  destruct (stat_size (path_join [publicImagesDir; s])) as [size|] eqn:E4.
  2:{ split; [discriminate|].
      intros [Hf|(s' & size & Hv & _ & _ & _ & Hst & _)]; [discriminate|].
      injection Hv as <-. congruence. }
  run_field. destruct (Z.gtb_spec size maxBytes) as [Hgt|Hle].
  - split; [discriminate|].
    intros [Hf|(s' & size' & Hv & _ & _ & _ & Hst & Hsz)]; [discriminate|].
    injection Hv as <-. rewrite E4 in Hst. injection Hst as <-.
    unfold maxBytes in Hgt. lia.
  - split; [|reflexivity]. intros _. right. exists s, size.
    repeat split; try assumption.
    + intros Hc. apply String_includes_char in Hc. congruence.
    + intros Hc. apply String_includes_char in Hc. congruence.
Qed.

Lemma check_projectImage_lowered (data : json) :
  snd (check_projectImage data false) = Normal tt false <->
  data <> JNull /\ image_in_order (field data "projectImage").
Proof.
  assert (Hnull : data = JNull \/ data <> JNull)
    by (destruct data; (now left) || (right; discriminate)).
  destruct Hnull as [->|Hd].
  - split; [discriminate | intros [[] _]; reflexivity].
  - rewrite check_projectImage_generic.
    rewrite (bind_normal _ _ _ _ _ _ (get_property_field data _ _ Hd)).
    cbn [fst snd]. rewrite check_image_field_lowered. tauto.
Qed.

Lemma check_studentPhoto_lowered (data : json) :
  snd (check_studentPhoto data false) = Normal tt false <->
  data <> JNull /\ image_in_order (field data "studentPhoto").
Proof.
  assert (Hnull : data = JNull \/ data <> JNull)
    by (destruct data; (now left) || (right; discriminate)).
  destruct Hnull as [->|Hd].
  - split; [discriminate | intros [[] _]; reflexivity].
  - rewrite check_studentPhoto_generic.
    rewrite (bind_normal _ _ _ _ _ _ (get_property_field data _ _ Hd)).
    cbn [fst snd]. rewrite check_image_field_lowered. tauto.
Qed.

Lemma check_suggested_object (m : gmap string json) (h : bool) :
  snd (check_suggested (JObject m) h) = Normal tt h.
Proof.
  unfold check_suggested, suggested. cbn [for_of]. unfold has_property.
  rewrite !bind_assoc, !bind_ret.
  destruct (m !! "projectUrl"), (m !! "githubUrl"), (m !! "tags"); reflexivity.
Qed.

Lemma check_suggested_lowered (data : json) :
  snd (check_suggested data false) = Normal tt false <->
  (exists m, data = JObject m) \/ (exists l, data = JArray l).
Proof.
  destruct data as [| b | x | s | l | m].
  1-4: split; [discriminate | intros [[? Hd]|[? Hd]]; discriminate Hd].
  - split; [eauto | reflexivity].
  - split; [eauto | intros _; apply check_suggested_object].
Qed.

Lemma validate_data_lowered (validate : ValidateFunction) (file : string)
    (data : json) :
  snd (validate_data validate file data false) = Normal tt false <->
  document_in_order validate data.
Proof.
  unfold validate_data, document_in_order.
  rewrite bind_lowered by auto 10 with flag.
  split.
  - intros ([] & Hs & Hrest). apply check_schema_lowered in Hs.
    apply bind_lowered in Hrest; [|auto 10 with flag].
    destruct Hrest as ([] & Hi & Hrest). apply check_imageUrl_lowered in Hi.
    apply bind_lowered in Hrest; [|auto 10 with flag].
    destruct Hrest as ([] & Hp & Hrest). apply check_projectImage_lowered in Hp.
    apply bind_lowered in Hrest; [|auto 10 with flag].
    destruct Hrest as ([] & Hq & Hrest). apply check_studentPhoto_lowered in Hq.
    apply check_suggested_lowered in Hrest. tauto.
  - intros (Hshape & Hs & Hi & Hp & Hq).
    assert (Hd : data <> JNull)
      by (destruct Hshape as [[? ->]|[? ->]]; discriminate).
    exists tt. split; [now apply check_schema_lowered|].
    apply bind_lowered; [auto 10 with flag|].
    exists tt. split; [now apply check_imageUrl_lowered|].
    apply bind_lowered; [auto 10 with flag|].
    exists tt. split; [now apply check_projectImage_lowered|].
    apply bind_lowered; [auto 10 with flag|].
    exists tt. split; [now apply check_studentPhoto_lowered|].
    now apply check_suggested_lowered.
Qed.

Lemma validate_file_lowered (validate : ValidateFunction) (file : string) :
  snd (validate_file validate file false) = Normal tt false <->
  file_in_order validate file.
Proof.
  unfold validate_file, file_in_order, readJSON, readFileSync.
  cbv zeta. rewrite !bind_assoc, bind_emit. cbn [snd].
  destruct (file_content (path_join [projectsDir; file])) as [text|].
  2:{ split; [discriminate | intros (? & ? & Hc & _); discriminate Hc]. }
  rewrite bind_ret.
  destruct (JSON_parse text) as [data|] eqn:Hp.
  2:{ split; [discriminate|].
      intros (text' & data & Hc & Hp' & _). congruence. }
  rewrite bind_ret, validate_data_lowered. split.
  - intros Hd. exists text, data. auto.
  - intros (text' & data' & Hc & Hp' & Hd). congruence.
Qed.

(** ** The exit status *)

(** C1 (amended) -- The exit status is 0 exactly when the schema loads,
    the directory lists at least one eligible file, and every eligible
    file is read and parsed to an object (or an array) that the validator
    accepts, that has no truthy [imageUrl], and whose [projectImage] and
    [studentPhoto] are each either falsy (absent included) or a string
    without slash or backslash that names an existing file whose size can
    be read and is at most 10 MiB.  In every other case (no eligible file,
    a failed check, anything thrown) the exit status is 1. *)
Theorem C1_exit_status :
  (exit_status = 0 <-> run_in_order)
  /\ (exit_status = 1 <-> ~ run_in_order).
Proof.
  assert (Hzero : exit_status = 0 <-> run_in_order).
  { unfold exit_status, run_in_order.
    destruct load_schema as [validate|] eqn:Hload.
    2:{ rewrite run_load_failure by assumption.
        split; [discriminate | intros (? & ? & Hc & _); discriminate Hc]. }
    destruct (dir_entries projectsDir) as [names|] eqn:Hdir.
    2:{ rewrite (run_listing_failure validate) by assumption.
        split; [discriminate | intros (? & ? & _ & Hc & _); discriminate Hc]. }
    destruct (eligible names) as [|f files] eqn:E.
    { rewrite (run_no_files validate names) by assumption.
      split; [discriminate|].
      intros (v' & names' & _ & Hd & Hne & _).
      injection Hd as <-. contradiction. }
    rewrite (run_files validate names) by (try assumption; now rewrite E).
    cbv zeta. rewrite E.
    pose proof (never_exits_for_of (f :: files) (validate_file validate)
                  (never_exits_validate_file validate) false) as Hne.
    pose proof (for_of_lowered (f :: files) (validate_file validate)
                  (accumulates_validate_file validate)) as Hlow.
    split.
    - intros Hexit. exists validate, names.
      repeat split; try assumption; try reflexivity.
      + rewrite E. discriminate.
      + intros file Hin. rewrite E in Hin.
        apply validate_file_lowered. apply Hlow; [|assumption].
        destruct (snd (for_of (f :: files) (validate_file validate) false))
          as [[] [|]|e|c]; try discriminate Hexit; try reflexivity.
        exfalso. exact (Hne c eq_refl).
    - intros (v' & names' & Hl & Hd & _ & Hall).
      injection Hl as <-. injection Hd as <-. rewrite E in Hall.
      assert (Hr : snd (for_of (f :: files) (validate_file validate) false)
                   = Normal tt false).
      { apply Hlow. intros x Hx. apply validate_file_lowered. auto. }
      rewrite Hr. reflexivity. }
  split; [exact Hzero|].
  destruct exit_status_binary as [E0|E1]; rewrite <- Hzero.
  - rewrite E0. split; [discriminate | intros Hc; now contradiction Hc].
  - rewrite E1. split; [discriminate | reflexivity].
Qed.

Lemma eligible_none (names : list string) :
  Forall (fun f => String_endsWith f ".json" = false
                   \/ f = "project.schema.json") names ->
  eligible names = [].
Proof.
  unfold eligible. induction 1 as [|f l Hf _ IH]; [reflexivity|].
  cbn [List.filter]. rewrite IH.
  destruct Hf as [Hf|Hf]; rewrite Hf; [reflexivity|].
  rewrite andb_false_r. reflexivity.
Qed.

(** C7 -- When the project directory lists no eligible file (no name
    ending in [.json] other than [project.schema.json]) the run ends with
    status 1, and ends at once: after the opening line and the reading of
    the schema come the listing of the directory and the error line, and
    nothing of a project file is read, checked or printed.  (When the
    schema itself cannot be loaded the run has already ended, with status
    1, on what was thrown.) *)
Theorem C7_no_eligible_file (names : list string) :
  dir_entries projectsDir = Some names ->
  Forall (fun f => String_endsWith f ".json" = false
                   \/ f = "project.schema.json") names ->
  exit_status = 1
  /\ output =
     [console_log (ESC +:+ "[36mInfo:" +:+ ESC
                   +:+ "[0m Validating project JSON files in " +:+ projectsDir);
      readFileSync_call schemaPath] ++
     match load_schema with
     | Some _ =>
         [readdirSync_call projectsDir;
          console_error
            (ESC +:+ "[31mError:" +:+ ESC
             +:+ "[0m No project JSON files found. Add files to src/data/projects/.")]
     | None => [console_error_exn load_failure]
     end.
Proof.
  intros Hdir Hnone. pose proof (eligible_none names Hnone) as E.
  unfold exit_status, output.
  destruct load_schema as [validate|] eqn:Hload.
  - rewrite (run_no_files validate names) by assumption. split; reflexivity.
  - rewrite run_load_failure by assumption. split; reflexivity.
Qed.

(** ** Files and checks do not depend on one another *)

Lemma then_independently_normal (m1 m2 : M unit) (h : bool) :
  accumulates m1 ->
  is_normal (snd ((m1 >>> m2) h)) = true ->
  fst ((m1 >>> m2) h) = fst (m1 false) ++ fst (m2 false)
  /\ snd ((m1 >>> m2) h) =
       Normal tt (h || flag_of (snd (m1 false)) || flag_of (snd (m2 false)))
  /\ is_normal (snd (m2 false)) = true.
Proof.
  intros H1. unfold then_independently. rewrite (H1 h). unfold raise.
  destruct (m1 false) as [t1 [[] h1|e|c]]; cbn [fst snd];
    try discriminate.
  destruct (m2 false) as [t2 [[] h2|e|c]]; cbn [fst snd flag_of is_normal];
    try discriminate.
  intros _. repeat split; reflexivity.
Qed.

Lemma then_independently_ext (m1 m2 m2' : M unit) (h : bool) :
  (forall h', m2 h' = m2' h') -> (m1 >>> m2) h = (m1 >>> m2') h.
Proof. intros E. unfold then_independently. now rewrite E. Qed.

Lemma check_suggested_keeps_lowered (data : json) :
  is_normal (snd (check_suggested data false)) = true ->
  flag_of (snd (check_suggested data false)) = false.
Proof.
  destruct data as [| b | x | s | l | m]; try discriminate.
  - reflexivity.
  - now rewrite check_suggested_object.
Qed.

Lemma for_of_independent {A} (l : list A) (body : A -> M unit) (h : bool) :
  (forall x, accumulates (body x)) ->
  is_normal (snd (for_of l body h)) = true ->
  fst (for_of l body h) = flat_map (fun x => fst (body x false)) l
  /\ snd (for_of l body h) =
       Normal tt (h || existsb (fun x => flag_of (snd (body x false))) l).
Proof.
  intros Hb. revert h. induction l as [|x l IH]; intros h; cbn [for_of].
  - intros _. cbn. now rewrite orb_false_r.
  - rewrite bind_then_independently by (apply accumulates_for_of; exact Hb).
    intros Hn.
    apply then_independently_normal in Hn as (T & O & Hn); [|apply Hb].
    destruct (IH false Hn) as (T' & O').
    rewrite T, O, T', O'. cbn [flat_map existsb flag_of orb].
    now rewrite orb_assoc.
Qed.

(** C2 (amended) -- As long as nothing is thrown, the files of a run, and
    the checks made on one file, do not depend on one another.  Processing
    a file and then the remaining ones is processing the remaining ones on
    their own, from a lowered flag, after everything the file printed:
    what the file found cannot reach them, and only an exception keeps
    them from being processed.  Likewise the five checks of a document
    (schema, [imageUrl], [projectImage], [studentPhoto], suggestions) each
    run from a lowered flag.  So whenever a document is processed to the
    end, what it prints is the five reports, each as the check makes it
    alone, one after the other, and its flag is the incoming flag joined
    with the four verdicts; and whenever the loop runs to its end, what it
    prints is, file after file, what each file prints on its own, and its
    flag is the incoming flag joined with the verdicts of the files. *)
Theorem C2_files_and_checks_independent (validate : ValidateFunction)
    (file : string) (files : list string) (data : json) (h : bool) :
  for_of (file :: files) (validate_file validate) h =
    (validate_file validate file >>> for_of files (validate_file validate)) h
  /\ validate_data validate file data h =
       (check_schema validate file data >>> check_imageUrl data
        >>> check_projectImage data >>> check_studentPhoto data
        >>> check_suggested data) h
  /\ (is_normal (outcome (validate_data validate file data h)) = true ->
      trace (validate_data validate file data h) =
        trace (check_schema validate file data false)
        ++ trace (check_imageUrl data false)
        ++ trace (check_projectImage data false)
        ++ trace (check_studentPhoto data false)
        ++ trace (check_suggested data false)
      /\ outcome (validate_data validate file data h) =
           Normal tt (h || flag_of (outcome (check_schema validate file data false))
                        || flag_of (outcome (check_imageUrl data false))
                        || flag_of (outcome (check_projectImage data false))
                        || flag_of (outcome (check_studentPhoto data false))))
  /\ (is_normal (outcome (for_of files (validate_file validate) h)) = true ->
      trace (for_of files (validate_file validate) h) =
        flat_map (fun f => trace (validate_file validate f false)) files
      /\ outcome (for_of files (validate_file validate) h) =
           Normal tt (h || existsb
                             (fun f => flag_of (outcome (validate_file validate f false)))
                             files)).
Proof.
  assert (E : forall h', validate_data validate file data h' =
       (check_schema validate file data >>> check_imageUrl data
        >>> check_projectImage data >>> check_studentPhoto data
        >>> check_suggested data) h').
  { intros h'. unfold validate_data.
    rewrite bind_then_independently by auto 10 with flag.
    apply then_independently_ext; intros h1.
    rewrite bind_then_independently by auto 10 with flag.
    apply then_independently_ext; intros h2.
    rewrite bind_then_independently by auto 10 with flag.
    apply then_independently_ext; intros h3.
    apply bind_then_independently. auto with flag. }
  split; [|split; [|split]].
  - cbn [for_of]. apply bind_then_independently.
    apply accumulates_for_of. apply accumulates_validate_file.
  - apply E.
  - unfold trace, outcome. rewrite E. intros Hn.
    apply then_independently_normal in Hn as (T1 & O1 & Hn);
      [|auto with flag].
    apply then_independently_normal in Hn as (T2 & O2 & Hn);
      [|auto with flag].
    apply then_independently_normal in Hn as (T3 & O3 & Hn);
      [|auto with flag].
    apply then_independently_normal in Hn as (T4 & O4 & Hn);
      [|auto with flag].
    rewrite T1, T2, T3, T4, O1, O2, O3, O4.
    rewrite (check_suggested_keeps_lowered data Hn).
    cbn [flag_of orb]. rewrite !orb_false_r, !orb_assoc. split; reflexivity.
  - apply for_of_independent. apply accumulates_validate_file.
Qed.

(** * The rest of the script *)

(** ** Listing the project files *)

Lemma substring_append (pre suf : string) :
  substring (String.length pre) (String.length suf) (pre +:+ suf) = suf.
Proof.
  induction pre as [|a pre IH]; simpl; [apply substring_all | exact IH].
Qed.

Lemma substring_split (s : string) (i : nat) :
  (i <= String.length s)%nat ->
  s = substring 0 i s +:+ substring i (String.length s - i) s.
Proof.
  revert i. induction s as [|a s IH]; intros [|i] Hi; simpl in *.
  - reflexivity.
  - lia.
  - now rewrite substring_all.
  - change (String a s = String a (substring 0 i s
                                   +:+ substring i (String.length s - i) s)).
    f_equal. apply IH. lia.
Qed.

Lemma length_append (s1 s2 : string) :
  String.length (s1 +:+ s2) = (String.length s1 + String.length s2)%nat.
Proof. induction s1 as [|a s1 IH]; simpl; [reflexivity | now rewrite IH]. Qed.

(** [s.endsWith(suffix)] holds exactly of the strings that are something
    followed by [suffix]. *)
Lemma String_endsWith_append (s suffix : string) :
  String_endsWith s suffix = true <-> exists base, s = base +:+ suffix.
Proof.
  unfold String_endsWith. split.
  - intros Hb. apply andb_prop in Hb as [Hle Heq].
    apply Nat.leb_le in Hle. apply String.eqb_eq in Heq.
    remember (String.length suffix) as k eqn:Hk.
    exists (substring 0 (String.length s - k) s).
    rewrite <- Heq.
    pose proof (substring_split s (String.length s - k) ltac:(lia)) as Hs.
    replace (String.length s - (String.length s - k))%nat with k in Hs by lia.
    exact Hs.
  - intros [base ->]. rewrite length_append.
    apply andb_true_intro. split; [apply Nat.leb_le; lia|].
    apply String.eqb_eq.
    replace (String.length base + String.length suffix - String.length suffix)%nat
      with (String.length base) by lia.
    apply substring_append.
Qed.

Lemma eligible_sublist (names : list string) : eligible names `sublist_of` names.
Proof.
  unfold eligible. induction names as [|f names IH]; cbn [List.filter].
  - constructor.
  - destruct (String_endsWith f ".json"
              && negb (String.eqb f "project.schema.json"));
      now constructor.
Qed.

(** X1 -- [findProjectFiles] lists the project directory once and keeps,
    in the order of the listing, exactly the names that are something
    followed by [.json] and are not [project.schema.json]; it prints
    nothing and leaves the flag alone.  When the directory cannot be listed
    it throws what the listing threw. *)
Theorem X1_findProjectFiles_keeps_json_names (h : bool) :
  match dir_entries projectsDir with
  | Some names =>
      exists files,
        findProjectFiles h = ([readdirSync_call projectsDir], Normal files h)
        /\ files `sublist_of` names
        /\ forall f, In f files <->
             In f names
             /\ (exists base, f = base +:+ ".json")
             /\ f <> "project.schema.json"
  | None =>
      findProjectFiles h =
        ([readdirSync_call projectsDir], Thrown (SystemError projectsDir))
  end.
Proof.
  unfold findProjectFiles, readdirSync. rewrite bind_assoc, bind_emit.
  destruct (dir_entries projectsDir) as [names|]; [|reflexivity].
  rewrite bind_ret. exists (eligible names).
  split; [reflexivity|]. split; [apply eligible_sublist|].
  intros f. unfold eligible. rewrite filter_In, andb_true_iff, negb_true_iff.
  rewrite String_endsWith_append, String.eqb_neq. tauto.
Qed.

(** ** Runs that end on an exception *)

(** X2 -- When the schema file cannot be read, is not JSON or is rejected
    by the schema compiler, the run ends right after the attempt to read
    it: the exception is printed, the status is 1, and the project
    directory is not even listed. *)
Theorem X2_schema_must_load :
  (file_content schemaPath = None ->
   run = (startup ++ [console_error_exn (SystemError schemaPath)], 1))
  /\ (forall text,
        file_content schemaPath = Some text -> JSON_parse text = None ->
        run = (startup ++ [console_error_exn SyntaxError], 1))
  /\ (forall text schema,
        file_content schemaPath = Some text ->
        JSON_parse text = Some schema ->
        ajv_compile schema = None ->
        run = (startup ++ [console_error_exn SchemaCompileError], 1)).
Proof.
  repeat split.
  - intros Hc. rewrite run_load_failure; unfold load_schema, load_failure;
      now rewrite Hc.
  - intros text Hc Hp. rewrite run_load_failure;
      unfold load_schema, load_failure; now rewrite Hc, Hp.
  - intros text schema Hc Hp Ha. rewrite run_load_failure;
      unfold load_schema, load_failure; now rewrite Hc, Hp, ?Ha.
Qed.

(** X3 -- When the schema loads but the project directory cannot be
    listed, the run ends on the listing: the exception is printed, the
    status is 1, and no project file is read. *)
Theorem X3_directory_must_list (validate : ValidateFunction) :
  load_schema = Some validate ->
  dir_entries projectsDir = None ->
  run = (startup ++ [readdirSync_call projectsDir;
                     console_error_exn (SystemError projectsDir)], 1).
Proof. apply run_listing_failure. Qed.

Lemma bind_ext {A B} (m : M A) (f g : A -> M B) (h : bool) :
  (forall a h', f a h' = g a h') -> bind m f h = bind m g h.
Proof.
  intros E. unfold bind. destruct (m h) as [t [a h1|e|c]]; try reflexivity.
  now rewrite E.
Qed.

Lemma bind_thrown {A B} (m : M A) (f : A -> M B) (h : bool)
    (t : list event) (e : exn) :
  m h = (t, Thrown e) -> bind m f h = (t, Thrown e).
Proof. intros E. unfold bind. now rewrite E. Qed.

Lemma for_of_app {A} (l1 l2 : list A) (body : A -> M unit) (h : bool) :
  for_of (l1 ++ l2) body h = bind (for_of l1 body) (fun _ => for_of l2 body) h.
Proof.
  revert h. induction l1 as [|x l1 IH]; intros h; cbn [app for_of].
  - now rewrite bind_ret.
  - rewrite bind_assoc. apply bind_ext. intros _ h1. apply IH.
Qed.

Lemma validate_file_throws (validate : ValidateFunction) (file : string)
    (h : bool) :
  let full := path_join [projectsDir; file] in
  (file_content full = None ->
   validate_file validate file h =
     ([readFileSync_call full], Thrown (SystemError full)))
  /\ (forall text,
        file_content full = Some text -> JSON_parse text = None ->
        validate_file validate file h =
          ([readFileSync_call full], Thrown SyntaxError)).
Proof.
  intros full. unfold validate_file, readJSON, readFileSync. cbv zeta.
  fold full. rewrite !bind_assoc, bind_emit. split.
  - intros ->. reflexivity.
  - intros text -> Hp. rewrite bind_ret, Hp. reflexivity.
Qed.

(** X4 -- A project file that cannot be read, or whose text is not JSON,
    ends the run where it stands: after what the files before it printed
    comes the attempt to read it, then the exception, with status 1.  The
    files after it are not read and no summary is printed. *)
Theorem X4_unreadable_file_ends_run (validate : ValidateFunction)
    (names before after : list string) (file : string)
    (t : list event) (h : bool) :
  let full := path_join [projectsDir; file] in
  load_schema = Some validate ->
  dir_entries projectsDir = Some names ->
  eligible names = before ++ file :: after ->
  for_of before (validate_file validate) false = (t, Normal tt h) ->
  (file_content full = None ->
   run = (startup ++ readdirSync_call projectsDir :: t
          ++ [readFileSync_call full; console_error_exn (SystemError full)], 1))
  /\ (forall text,
        file_content full = Some text -> JSON_parse text = None ->
        run = (startup ++ readdirSync_call projectsDir :: t
               ++ [readFileSync_call full; console_error_exn SyntaxError], 1)).
Proof.
  intros full Hload Hdir Hel Hbefore.
  assert (Hrun : forall e,
            validate_file validate file h = ([readFileSync_call full], Thrown e) ->
            run = (startup ++ readdirSync_call projectsDir :: t
                   ++ [readFileSync_call full; console_error_exn e], 1)).
  { intros e He.
    rewrite (run_files validate names Hload Hdir)
      by (rewrite Hel; now destruct before).
    cbv zeta. rewrite Hel, for_of_app.
    rewrite (bind_normal _ _ _ _ _ _ Hbefore). cbn [for_of].
    rewrite (bind_thrown _ _ _ _ _ He). cbn [fst snd].
    now rewrite <- app_assoc. }
  destruct (validate_file_throws validate file h) as [Hnone Hsyntax].
  split.
  - intros Hc. apply Hrun, Hnone, Hc.
  - intros text Hc Hp. apply Hrun. now apply (Hsyntax text).
Qed.

(** ** The checks, on what the claims leave out *)

(** X5 -- The schema check always completes.  On a document the validator
    accepts it prints nothing and leaves the flag as it was; on one it
    rejects it raises the flag and prints a header naming the file, then
    one line per violation, in the validator's order, with [(root)] for a
    violation at the root of the document. *)
Theorem X5_schema_check_reports_every_violation (validate : ValidateFunction)
    (file : string) (data : json) (h : bool) :
  check_schema validate file data h =
  if validate_call validate data then ([], Normal tt h)
  else (console_log (LF +:+ ESC +:+ "[33m" +:+ file +:+ ESC
                     +:+ "[0m schema errors:")
        :: map violation_line (validate_errors validate data),
        Normal tt true).
Proof.
  rewrite check_schema_completes. unfold schema_report.
  destruct (validate_call validate data); cbn [negb].
  - now rewrite orb_false_r.
  - now rewrite orb_true_r.
Qed.

(** X6 -- An image field that is a plain file name of a file that is not
    there: the check asks once whether the file exists, does not ask for
    its size, raises the flag and prints the "image not found" line with
    the name.  The same for [projectImage] and for [studentPhoto]. *)
Theorem X6_missing_image_reported (m : gmap string json) (s : string)
    (h : bool) :
  let p := path_join [publicImagesDir; s] in
  let report :=
    ([existsSync_call p;
      console_log (" - image not found at public/images/" +:+ s)],
     Normal tt true) in
  String.eqb s "" = false -> ~ has_char "/" s -> ~ has_char "\" s ->
  path_exists p = false ->
  (m !! "projectImage" = Some (JString s) ->
   check_projectImage (JObject m) h = report)
  /\ (m !! "studentPhoto" = Some (JString s) ->
      check_studentPhoto (JObject m) h = report).
Proof.
  intros p report Hne H1 H2 Hex.
  destruct (plain_image_name s Hne H1 H2) as (Ht & Hi1 & Hi2).
  split; intros Hm; run_check; rewrite Hm, Ht, Hi1, Hi2; fold p;
    rewrite Hex; reflexivity.
Qed.

(** The file-system calls of the image-field check, for every value. *)
Lemma check_image_field_fs_calls (name : string) (v : option json) (h : bool) :
  fs_calls (fst (check_image_field name v h)) =
  match v with
  | Some (JString s) =>
      if negb (String.eqb s "") && negb (String_includes s "/")
         && negb (String_includes s "\")
      then existsSync_call (path_join [publicImagesDir; s])
           :: (if path_exists (path_join [publicImagesDir; s])
               then [statSync_call (path_join [publicImagesDir; s])]
               else [])
      else []
  | _ => []
  end.
Proof.
  unfold check_image_field.
  destruct v as [[| b | x | s | l | mm]|]; cbn [ToBoolean];
    try reflexivity.
  - destruct b; reflexivity.
  - destruct x; reflexivity.
  - destruct (String.eqb s ""); cbn [negb andb]; [reflexivity|].
    split_conditions; reflexivity.
  - split_conditions; reflexivity.
Qed.

(** X7 -- The image checks touch the file system only for a value that is
    a non-empty string without slash or backslash, and then only at the
    path of that name under the public images directory: they ask once
    whether it exists and, only if it does, ask once for its size.  For
    every other value, and for a document that is not an object, they make
    no file-system call. *)
Theorem X7_image_check_file_system_calls (data : json) (h : bool) :
  let calls (v : option json) :=
    match v with
    | Some (JString s) =>
        if negb (String.eqb s "") && negb (String_includes s "/")
           && negb (String_includes s "\")
        then existsSync_call (path_join [publicImagesDir; s])
             :: (if path_exists (path_join [publicImagesDir; s])
                 then [statSync_call (path_join [publicImagesDir; s])]
                 else [])
        else []
    | _ => []
    end in
  fs_calls (trace (check_projectImage data h))
    = calls (field data "projectImage")
  /\ fs_calls (trace (check_studentPhoto data h))
     = calls (field data "studentPhoto").
Proof.
  intros calls. unfold trace.
  rewrite check_projectImage_generic, check_studentPhoto_generic.
  destruct data as [| b | x | s | l | m]; try (split; reflexivity).
  split.
  - rewrite (bind_normal _ _ _ _ _ _
               (get_property_field (JObject m) "projectImage" h
                  ltac:(discriminate))).
    cbn [fst app]. apply check_image_field_fs_calls.
  - rewrite (bind_normal _ _ _ _ _ _
               (get_property_field (JObject m) "studentPhoto" h
                  ltac:(discriminate))).
    cbn [fst app]. apply check_image_field_fs_calls.
Qed.



(** X9 -- The [imageUrl] check, on every document: reading the field of
    [null] throws a [TypeError]; otherwise the check completes, and it
    raises the flag and prints the rename line exactly when the field is
    truthy, so that an absent, empty, [null], [false] or zero [imageUrl]
    prints nothing and leaves the flag as it was. *)
Theorem X9_imageUrl_check_on_every_document (data : json) (h : bool) :
  check_imageUrl data h =
  match data with
  | JNull => ([], Thrown TypeError)
  | _ => if ToBoolean (field data "imageUrl")
         then ([console_log renamed_message], Normal tt true)
         else ([], Normal tt h)
  end.
Proof.
  destruct data as [| b | x | s | l | m]; try reflexivity.
  run_check. cbn [field]. destruct (ToBoolean (m !! "imageUrl")); reflexivity.
Qed.

(** X10 -- A document that is [null], a boolean, a number or a string is
    never processed to the end: after the schema report, if any, a
    [TypeError] is thrown ([null] has no properties to read, and [in]
    refuses a primitive). *)
Theorem X10_primitive_document_throws (validate : ValidateFunction)
    (file : string) (data : json) (h : bool) :
  (forall m, data <> JObject m) ->
  (forall l, data <> JArray l) ->
  validate_data validate file data h =
    (schema_report validate file data, Thrown TypeError).
Proof.
  intros Ho Ha. unfold validate_data.
  rewrite (bind_normal _ _ _ _ _ _ (check_schema_completes _ _ _ _)).
  destruct data as [| b | x | s | l | m];
    try (cbn; now rewrite app_nil_r).
  - now contradiction (Ha l).
  - now contradiction (Ho m).
Qed.

(** X11 -- A document that is an array has none of the fields: after the
    schema report come the three suggestions, and the flag is raised only
    by the schema check. *)
Theorem X11_array_document (validate : ValidateFunction) (file : string)
    (l : list json) (h : bool) :
  validate_data validate file (JArray l) h =
    (schema_report validate file (JArray l) ++ all_suggestions,
     Normal tt (h || negb (validate_call validate (JArray l)))).
Proof.
  unfold validate_data.
  rewrite (bind_normal _ _ _ _ _ _ (check_schema_completes _ _ _ _)).
  reflexivity.
Qed.

(** ** The end of the run *)

Lemma last_of_run (pre t : list event) (ev x : event) :
  last (pre ++ ev :: t ++ [x]) = Some x.
Proof. now rewrite app_comm_cons, app_assoc, last_snoc. Qed.

Lemma loop_never_exits (validate : ValidateFunction) (files : list string)
    (h : bool) (c : Z) :
  snd (for_of files (validate_file validate) h) <> Exited c.
Proof.
  apply never_exits_for_of. apply never_exits_validate_file.
Qed.

Lemma for_of_normal {A} (l : list A) (body : A -> M unit) (h : bool) :
  (forall x, accumulates (body x)) ->
  (forall x, In x l -> is_normal (snd (body x false)) = true) ->
  is_normal (snd (for_of l body h)) = true.
Proof.
  intros Hb. revert h. induction l as [|x l IH]; intros h Hall; cbn [for_of].
  - reflexivity.
  - unfold bind. rewrite (Hb x h). unfold raise.
    pose proof (Hall x (or_introl eq_refl)) as Hx.
    destruct (body x false) as [t [[] hx|e|c]]; try discriminate Hx.
    cbn [fst snd]. apply IH. intros y Hy. apply Hall. now right.
Qed.

Lemma validate_file_reads_first (validate : ValidateFunction) (file : string)
    (h : bool) :
  exists t, fst (validate_file validate file h) =
            readFileSync_call (path_join [projectsDir; file]) :: t.
Proof.
  unfold validate_file, readJSON, readFileSync. cbv zeta.
  rewrite !bind_assoc, bind_emit. cbn [fst]. eauto.
Qed.

(** X13 -- Failures are reported at the end.  When no file throws, a file
    whose checks raise the flag does not end the run: every eligible file
    is read, the last line printed is the "Validation failed" banner, and
    the status is 1. *)
Theorem X13_failure_reported_at_end (validate : ValidateFunction)
    (names : list string) (file : string) :
  load_schema = Some validate ->
  dir_entries projectsDir = Some names ->
  (forall f, In f (eligible names) ->
     is_normal (outcome (validate_file validate f false)) = true) ->
  In file (eligible names) ->
  flag_of (outcome (validate_file validate file false)) = true ->
  exit_status = 1
  /\ last output = Some (console_log failed_message)
  /\ forall f, In f (eligible names) ->
       In (readFileSync_call (path_join [projectsDir; f])) output.
Proof.
  intros Hload Hdir Hall Hin Hflag. unfold exit_status, output, outcome in *.
  rewrite (run_files validate names Hload Hdir)
    by (intros E; rewrite E in Hin; destruct Hin).
  cbv zeta.
  pose proof (for_of_normal (eligible names) (validate_file validate) false
                (accumulates_validate_file validate) Hall) as Hn.
  destruct (for_of_independent (eligible names) (validate_file validate) false
              (accumulates_validate_file validate) Hn) as (T & O).
  assert (Hany : existsb (fun x => flag_of (snd (validate_file validate x false)))
                   (eligible names) = true)
    by (apply existsb_exists; eauto).
  rewrite O, Hany. cbn [orb fst snd]. rewrite last_of_run.
  repeat split.
  intros f Hf. apply in_or_app. right. right. apply in_or_app. left.
  rewrite T. apply in_flat_map. exists f. split; [assumption|].
  destruct (validate_file_reads_first validate f false) as [t ->]. now left.
Qed.

(** X14 -- The status of the process is never anything but 0 or 1, and
    the process is never ended from inside the loop over the files: the
    loop completes or throws. *)
Theorem X14_exit_status_is_0_or_1 :
  (exit_status = 0 \/ exit_status = 1)
  /\ forall (validate : ValidateFunction) (files : list string) (h : bool)
       (c : Z),
       outcome (for_of files (validate_file validate) h) <> Exited c.
Proof.
  split; [apply exit_status_binary|].
  intros validate files h c. apply loop_never_exits.
Qed.

(** ** What a run reads and what a clean run prints *)

Lemma files_read_app (t1 t2 : list event) :
  files_read (t1 ++ t2) = files_read t1 ++ files_read t2.
Proof. apply flat_map_app. Qed.

Lemma reads_nothing_bind {A B} (m : M A) (f : A -> M B) :
  reads_nothing m -> (forall a, reads_nothing (f a)) -> reads_nothing (bind m f).
Proof.
  intros Hm Hf h. unfold bind. specialize (Hm h).
  destruct (m h) as [t [a h1|e|c]]; cbn [fst] in *; try assumption.
  rewrite files_read_app, Hm. apply Hf.
Qed.

Lemma reads_nothing_for_of {A} (l : list A) (body : A -> M unit) :
  (forall x, reads_nothing (body x)) -> reads_nothing (for_of l body).
Proof.
  intros Hb. induction l as [|x l IH]; cbn [for_of].
  - intros h. reflexivity.
  - apply reads_nothing_bind; auto.
Qed.

Ltac no_read :=
  repeat first
    [ apply reads_nothing_bind; [|intros ?]
    | apply reads_nothing_for_of; intros ?
    | match goal with
      | |- reads_nothing (if ?b then _ else _) => destruct b
      | |- reads_nothing (match ?x with _ => _ end) => destruct x
      | |- reads_nothing _ => intros ?; reflexivity
      end ].

(** The checks read no file: only the loop body does, once. *)
Lemma validate_data_reads_nothing (validate : ValidateFunction)
    (file : string) (data : json) :
  reads_nothing (validate_data validate file data).
Proof.
  unfold validate_data, check_schema, check_imageUrl, check_projectImage,
    check_studentPhoto, check_suggested, get_property, has_property, includes,
    template, path_join_value, existsSync, statSync.
  no_read.
Qed.

Lemma validate_file_reads_once (validate : ValidateFunction) (file : string)
    (h : bool) :
  files_read (fst (validate_file validate file h)) =
    [path_join [projectsDir; file]].
Proof.
  unfold validate_file, readJSON, readFileSync. cbv zeta.
  rewrite !bind_assoc, bind_emit. cbn [fst files_read flat_map app].
  destruct (file_content (path_join [projectsDir; file])) as [text|];
    [|reflexivity].
  rewrite bind_ret.
  destruct (JSON_parse text) as [data|]; [|reflexivity].
  rewrite bind_ret.
  change (flat_map _ ?t) with (files_read t).
  now rewrite validate_data_reads_nothing.
Qed.

Lemma loop_reads_in_order (validate : ValidateFunction) (files : list string)
    (h : bool) :
  exists done rest,
    files = done ++ rest
    /\ files_read (fst (for_of files (validate_file validate) h)) =
         map (fun f => path_join [projectsDir; f]) done
    /\ (is_normal (snd (for_of files (validate_file validate) h)) = true ->
        rest = []).
Proof.
  revert h. induction files as [|f files IH]; intros h; cbn [for_of].
  - exists [], []. repeat split.
  - unfold bind.
    pose proof (validate_file_reads_once validate f h) as Hf.
    destruct (validate_file validate f h) as [t [[] h1|e|c]]; cbn [fst snd] in *.
    + destruct (IH h1) as (done & rest & -> & Hr & Hn).
      exists (f :: done), rest. rewrite files_read_app, Hf, Hr.
      repeat split. exact Hn.
    + exists [f], files. rewrite Hf. repeat split. discriminate.
    + exists [f], files. rewrite Hf. repeat split. discriminate.
Qed.

Lemma files_read_of_run (p : string) (t tail : list event) :
  files_read (startup ++ readdirSync_call p :: t ++ tail) =
    schemaPath :: files_read t ++ files_read tail.
Proof.
  rewrite files_read_app. cbn [startup files_read flat_map app].
  change (flat_map _ ?l) with (files_read l). now rewrite files_read_app.
Qed.

(** X15 -- The files a run reads: first the schema, then project files in
    the order of the listing, each once, leaving out none before the last
    one read; when the status is 0 every eligible file has been read.
    Nothing else is ever read. *)
Theorem X15_files_read_in_listing_order :
  exists done rest,
    match dir_entries projectsDir with
    | Some names => eligible names
    | None => []
    end = done ++ rest
    /\ files_read output =
         schemaPath :: map (fun f => path_join [projectsDir; f]) done
    /\ (exit_status = 0 -> rest = []).
Proof.
  unfold exit_status, output.
  destruct load_schema as [validate|] eqn:Hload.
  2:{ rewrite run_load_failure by assumption.
      eexists [], _. repeat split. discriminate. }
  destruct (dir_entries projectsDir) as [names|] eqn:Hdir.
  2:{ rewrite (run_listing_failure validate) by assumption.
      exists [], []. repeat split. }
  destruct (eligible names) as [|f files] eqn:E.
  { rewrite (run_no_files validate names) by assumption.
    exists [], []. repeat split. }
  rewrite (run_files validate names) by (try assumption; now rewrite E).
  cbv zeta. rewrite E.
  destruct (loop_reads_in_order validate (f :: files) false)
    as (done & rest & Hsplit & Hr & Hn).
  exists done, rest. split; [assumption|].
  pose proof (loop_never_exits validate (f :: files) false) as Hne.
  destruct (for_of (f :: files) (validate_file validate) false)
    as [t [[] [|]|e|c]]; cbn [fst snd] in *;
    [| | |now contradiction (Hne c)];
    rewrite files_read_of_run, Hr, app_nil_r;
    split; try reflexivity; try discriminate.
  intros _. now apply Hn.
Qed.

Lemma quiet_bind {A B} (m : M A) (f : A -> M B) :
  (forall a, accumulates (f a)) ->
  quiet_when_lowered m -> (forall a, quiet_when_lowered (f a)) ->
  quiet_when_lowered (bind m f).
Proof.
  intros Hacc Hm Hf b. unfold bind.
  destruct (m false) as [t [a h1|e|c]] eqn:Em; cbn [fst snd];
    try discriminate.
  rewrite (Hacc a h1). unfold raise. cbn [fst snd].
  destruct (snd (f a false)) as [b' h2|e|c] eqn:Ef; try discriminate.
  intros Hn. injection Hn as -> Hh. apply orb_false_elim in Hh as [-> ->].
  apply Forall_app. split.
  - specialize (Hm a). rewrite Em in Hm. now apply Hm.
  - apply (Hf a b). exact Ef.
Qed.

Lemma quiet_for_of {A} (l : list A) (body : A -> M unit) :
  (forall x, accumulates (body x)) ->
  (forall x, quiet_when_lowered (body x)) ->
  quiet_when_lowered (for_of l body).
Proof.
  intros Hacc Hb. induction l as [|x l IH]; cbn [for_of].
  - intros b _. constructor.
  - apply quiet_bind; auto. intros _. now apply accumulates_for_of.
Qed.

Lemma harmless_fs_call (ev : event) : is_fs_call ev = true -> harmless ev.
Proof. now left. Qed.

Ltac all_harmless Hs :=
  repeat match goal with
         | |- Forall _ [] => constructor
         | |- Forall _ (_ :: _) => constructor; [apply Hs; cbn; tauto|]
         end.

Lemma quiet_check_schema (validate : ValidateFunction) (file : string)
    (data : json) :
  quiet_when_lowered (check_schema validate file data).
Proof.
  intros b. rewrite check_schema_completes. unfold schema_report.
  destruct (validate_call validate data); [constructor | discriminate].
Qed.

Lemma quiet_check_imageUrl (data : json) :
  quiet_when_lowered (check_imageUrl data).
Proof.
  intros b. destruct data as [| b' | x | s | l | m]; try (intros _; constructor).
  run_check. destruct (ToBoolean (m !! "imageUrl"));
    [discriminate | constructor].
Qed.

Lemma quiet_check_image_field (name : string) (v : option json) :
  quiet_when_lowered (check_image_field name v).
Proof.
  intros b. unfold check_image_field.
  destruct (ToBoolean v); [|constructor].
  destruct v as [[| b' | x | s | l | mm]|]; split_conditions;
    first [discriminate
          | intros _; repeat constructor; apply harmless_fs_call; reflexivity].
Qed.

Lemma quiet_get_property (data : json) (key : string) :
  quiet_when_lowered (get_property data key).
Proof. intros b _. destruct data; constructor. Qed.

Lemma quiet_check_suggested (data : json) :
  quiet_when_lowered (check_suggested data).
Proof.
  intros b _.
  assert (Hs : forall key, In key suggested ->
                 harmless (console_log (suggestion_message key)))
    by (intros key Hk; right; eauto).
  destruct data as [| b' | x | s | l | m].
  1-5: cbn; all_harmless Hs.
  unfold check_suggested, suggested. cbn [for_of]. unfold has_property.
  rewrite !bind_assoc, !bind_ret.
  destruct (m !! "projectUrl"), (m !! "githubUrl"), (m !! "tags");
    cbn; all_harmless Hs.
Qed.

Lemma accumulates_check_image_field (name : string) (v : option json) :
  accumulates (check_image_field name v).
Proof. unfold check_image_field. auto 20 with flag. Qed.

Lemma quiet_check_projectImage (data : json) :
  quiet_when_lowered (check_projectImage data).
Proof.
  change (quiet_when_lowered
            (v <- get_property data "projectImage" ;;
             check_image_field "projectImage" v)).
  apply quiet_bind;
    [apply accumulates_check_image_field | apply quiet_get_property
    | intros v; apply quiet_check_image_field].
Qed.

Lemma quiet_check_studentPhoto (data : json) :
  quiet_when_lowered (check_studentPhoto data).
Proof.
  change (quiet_when_lowered
            (v <- get_property data "studentPhoto" ;;
             check_image_field "studentPhoto" v)).
  apply quiet_bind;
    [apply accumulates_check_image_field | apply quiet_get_property
    | intros v; apply quiet_check_image_field].
Qed.

Lemma quiet_validate_file (validate : ValidateFunction) (file : string) :
  quiet_when_lowered (validate_file validate file).
Proof.
  unfold validate_file, validate_data. cbv zeta.
  apply quiet_bind.
  - intros data. apply (accumulates_validate_data validate file data).
  - intros b _. unfold readJSON, readFileSync.
    rewrite !bind_assoc, bind_emit. cbn [fst].
    constructor; [apply harmless_fs_call; reflexivity|].
    destruct (file_content (path_join [projectsDir; file])) as [text|];
      [|constructor].
    rewrite bind_ret. destruct (JSON_parse text); constructor.
  - intros data.
    apply quiet_bind; [auto 10 with flag | apply quiet_check_schema |].
    intros _.
    apply quiet_bind; [auto 10 with flag | apply quiet_check_imageUrl |].
    intros _.
    apply quiet_bind; [auto 10 with flag | apply quiet_check_projectImage |].
    intros _.
    apply quiet_bind; [auto 10 with flag | apply quiet_check_studentPhoto |].
    intros _. apply quiet_check_suggested.
Qed.

(** X16 -- A run that ends with status 0 has printed no error: between the
    opening (the information line, the reading of the schema and the
    listing) and the closing summary, which counts the eligible files,
    there are only file-system calls and suggestion lines for
    [projectUrl], [githubUrl] or [tags]. *)
Theorem X16_clean_run_prints_only_suggestions :
  exit_status = 0 ->
  exists names middle,
    dir_entries projectsDir = Some names
    /\ output =
         startup ++ readdirSync_call projectsDir :: middle
         ++ [console_log (all_valid_message (List.length (eligible names)))]
    /\ Forall harmless middle.
Proof.
  unfold exit_status, output.
  destruct load_schema as [validate|] eqn:Hload;
    [|rewrite run_load_failure by assumption; discriminate].
  destruct (dir_entries projectsDir) as [names|] eqn:Hdir;
    [|rewrite (run_listing_failure validate) by assumption; discriminate].
  destruct (eligible names) as [|f files] eqn:E;
    [rewrite (run_no_files validate names) by assumption; discriminate|].
  rewrite (run_files validate names) by (try assumption; now rewrite E).
  cbv zeta. rewrite E.
  pose proof (loop_never_exits validate (f :: files) false) as Hne.
  pose proof (quiet_for_of (f :: files) (validate_file validate)
                (accumulates_validate_file validate)
                (quiet_validate_file validate) tt) as Hquiet.
  destruct (for_of (f :: files) (validate_file validate) false)
    as [t [[] [|]|e|c]]; cbn [fst snd] in *; try discriminate.
  - intros _. exists names, t. rewrite E. repeat split. now apply Hquiet.
  - now contradiction (Hne c).
Qed.

(** X17 -- An image that exists but whose size cannot be read: the check
    asks whether it exists, asks for its size, and throws what [statSync]
    threw; it prints nothing.  The same for [projectImage] and for
    [studentPhoto]. *)
Theorem X17_unreadable_size_throws (m : gmap string json) (s : string)
    (h : bool) :
  let p := path_join [publicImagesDir; s] in
  String.eqb s "" = false -> ~ has_char "/" s -> ~ has_char "\" s ->
  path_exists p = true ->
  stat_size p = None ->
  (m !! "projectImage" = Some (JString s) ->
   check_projectImage (JObject m) h =
     ([existsSync_call p; statSync_call p], Thrown (SystemError p)))
  /\ (m !! "studentPhoto" = Some (JString s) ->
      check_studentPhoto (JObject m) h =
        ([existsSync_call p; statSync_call p], Thrown (SystemError p))).
Proof.
  intros p Hne H1 H2 Hex Hst.
  destruct (plain_image_name s Hne H1 H2) as (Ht & Hi1 & Hi2).
  split; intros Hm; run_check; rewrite Hm, Ht, Hi1, Hi2; fold p;
    rewrite Hex, Hst; reflexivity.
Qed.

(** * The checks inside a document *)

(** ** The suggestions *)

Lemma check_suggested_lines (data : json) (h : bool) :
  (exists m, data = JObject m) \/ (exists l, data = JArray l) ->
  check_suggested data h = (suggestion_lines data, Normal tt h).
Proof.
  intros [[m ->]|[l ->]]; [|reflexivity].
  unfold check_suggested, suggestion_lines, suggested, suggestion_message.
  cbn [for_of flat_map field]. unfold has_property.
  rewrite !bind_assoc, !bind_ret.
  destruct (m !! "projectUrl"), (m !! "githubUrl"), (m !! "tags");
    reflexivity.
Qed.

Lemma validate_data_ends_with_suggestions (validate : ValidateFunction)
    (file : string) (data : json) (h : bool) :
  validate_data validate file data h =
  (checks_before_suggestions validate file data ;; check_suggested data) h.
Proof.
  unfold validate_data, checks_before_suggestions.
  rewrite bind_assoc. apply bind_ext. intros _ h1.
  rewrite bind_assoc. apply bind_ext. intros _ h2.
  rewrite bind_assoc. reflexivity.
Qed.

(** C8 (amended) -- For a document that is an object or an array: for each
    of [projectUrl], [githubUrl] and [tags], in this order, the
    suggestion step prints the line naming the key exactly when the
    document does not have the key, and it completes with the flag it was
    started with.  So the step changes neither flag nor completion of
    what comes before it, and a document is processed as the checks before
    the suggestions process it, with the suggestion lines added at the end
    of their output when they complete (when one of them throws, the step
    is not reached). *)
Theorem C8_suggestions_leave_flag (validate : ValidateFunction)
    (file : string) (data : json) (h : bool) :
  (exists m, data = JObject m) \/ (exists l, data = JArray l) ->
  let line key :=
    if bool_decide (field data key = None)
    then [console_log (" - suggestion: consider adding " +:+ DQUOTE +:+ key
                       +:+ DQUOTE)]
    else [] in
  let lines := line "projectUrl" ++ line "githubUrl" ++ line "tags" in
  check_suggested data h = (lines, Normal tt h)
  /\ (forall before : M unit,
        outcome ((before ;; check_suggested data) h) = outcome (before h))
  /\ validate_data validate file data h =
       (trace (checks_before_suggestions validate file data h)
        ++ (if is_normal (outcome (checks_before_suggestions validate file data h))
            then lines else []),
        outcome (checks_before_suggestions validate file data h)).
Proof.
  intros Hshape line lines.
  assert (E : forall h', check_suggested data h' = (lines, Normal tt h')).
  { intros h'. rewrite (check_suggested_lines data h' Hshape).
    unfold suggestion_lines, suggested, lines, line, suggestion_message.
    cbn [flat_map]. now rewrite app_nil_r. }
  split; [apply E|]. split.
  - intros before. unfold outcome, bind.
    destruct (before h) as [t [[] h1|e|c]]; try reflexivity.
    rewrite E. reflexivity.
  - rewrite validate_data_ends_with_suggestions. unfold trace, outcome, bind.
    destruct (checks_before_suggestions validate file data h)
      as [t [[] h1|e|c]]; cbn [fst snd is_normal];
      rewrite ?E, ?app_nil_r; reflexivity.
Qed.

(** ** Paths in the image fields *)

Lemma fs_calls_app (t1 t2 : list event) :
  fs_calls (t1 ++ t2) = fs_calls t1 ++ fs_calls t2.
Proof. apply List.filter_app. Qed.

Lemma fs_calls_schema_report (validate : ValidateFunction) (file : string)
    (data : json) :
  fs_calls (schema_report validate file data) = [].
Proof.
  unfold schema_report. destruct (validate_call validate data);
    [reflexivity|].
  cbn [fs_calls List.filter is_fs_call].
  induction (validate_errors validate data) as [|err l IH];
    [reflexivity | exact IH].
Qed.

Lemma fs_calls_suggestion_lines (data : json) :
  fs_calls (suggestion_lines data) = [].
Proof.
  unfold suggestion_lines, suggested. cbn [flat_map].
  destruct (bool_decide (field data "projectUrl" = None)),
    (bool_decide (field data "githubUrl" = None)),
    (bool_decide (field data "tags" = None)); reflexivity.
Qed.

(** The [imageUrl] check of an object completes and calls nothing. *)
Lemma check_imageUrl_object (m : gmap string json) (h : bool) :
  exists t,
    check_imageUrl (JObject m) h =
      (t, Normal tt (h || ToBoolean (m !! "imageUrl")))
    /\ t = fst (check_imageUrl (JObject m) false)
    /\ fs_calls t = [].
Proof.
  run_check. destruct (ToBoolean (m !! "imageUrl")); eexists;
    repeat split; now rewrite ?orb_true_r, ?orb_false_r.
Qed.

Lemma bind_completion {A B} (m : M A) (f : A -> M B) (h : bool)
    (t : list event) (c : completion A) :
  m h = (t, c) ->
  bind m f h = match c with
               | Normal a h1 => (t ++ fst (f a h1), snd (f a h1))
               | Thrown e => (t, Thrown e)
               | Exited n => (t, Exited n)
               end.
Proof. intros E. unfold bind. rewrite E. now destruct c. Qed.

(** C5 (amended) -- In a document that is an object, a [projectImage]
    that contains a slash or a backslash raises the flag and gets the
    "filename only, no path" line with the value in it, right after what
    the schema and [imageUrl] checks printed; the file system is not asked
    about it (the only file-system calls of the document are those of the
    [studentPhoto] check), and the document never ends with a lowered
    flag.  The same holds of a [studentPhoto] that contains a slash or a
    backslash whenever the [projectImage] check before it completes: the
    line comes right after what that check printed, the only file-system
    calls of the document are those of the [projectImage] check, and the
    document ends with a raised flag.  (When the [projectImage] check
    throws, the [studentPhoto] check is not reached.) *)
Theorem C5_path_in_image_field (validate : ValidateFunction) (file : string)
    (m : gmap string json) (s : string) (h : bool) :
  has_char "/" s \/ has_char "\" s ->
  (m !! "projectImage" = Some (JString s) ->
   let line :=
     console_log (" - projectImage should be a filename only, no path (got '"
                  +:+ s +:+ "')") in
   check_projectImage (JObject m) h = ([line], Normal tt true)
   /\ trace (validate_data validate file (JObject m) h) =
        schema_report validate file (JObject m)
        ++ trace (check_imageUrl (JObject m) false)
        ++ line :: trace (check_studentPhoto (JObject m) false)
        ++ (if is_normal (outcome (check_studentPhoto (JObject m) false))
            then suggestion_lines (JObject m) else [])
   /\ fs_calls (trace (validate_data validate file (JObject m) h)) =
        fs_calls (trace (check_studentPhoto (JObject m) false))
   /\ forall u,
        outcome (validate_data validate file (JObject m) h) <> Normal u false)
  /\ (m !! "studentPhoto" = Some (JString s) ->
      is_normal (outcome (check_projectImage (JObject m) false)) = true ->
      let line :=
        console_log (" - studentPhoto should be a filename only, no path (got '"
                     +:+ s +:+ "')") in
      check_studentPhoto (JObject m) h = ([line], Normal tt true)
      /\ trace (validate_data validate file (JObject m) h) =
           schema_report validate file (JObject m)
           ++ trace (check_imageUrl (JObject m) false)
           ++ trace (check_projectImage (JObject m) false)
           ++ line :: suggestion_lines (JObject m)
      /\ fs_calls (trace (validate_data validate file (JObject m) h)) =
           fs_calls (trace (check_projectImage (JObject m) false))
      /\ outcome (validate_data validate file (JObject m) h) = Normal tt true).
Proof.
  intros Hs. unfold trace, outcome.
  destruct (path_in_image_field_alone m s h Hs) as [Palone Salone].
  assert (Hsugg : forall h', check_suggested (JObject m) h' =
                             (suggestion_lines (JObject m), Normal tt h'))
    by (intros h'; apply check_suggested_lines; eauto).
  split.
  - intros Hm. cbv zeta.
    set (line := console_log
                   (" - projectImage should be a filename only, no path (got '"
                    +:+ s +:+ "')")).
    split; [exact (Palone Hm)|].
    assert (E : validate_data validate file (JObject m) h =
                (schema_report validate file (JObject m)
                 ++ fst (check_imageUrl (JObject m) false)
                 ++ line :: fst (check_studentPhoto (JObject m) false)
                 ++ (if is_normal (snd (check_studentPhoto (JObject m) false))
                     then suggestion_lines (JObject m) else []),
                 match snd (check_studentPhoto (JObject m) false) with
                 | Normal _ _ => Normal tt true
                 | c => c
                 end)).
    { unfold validate_data.
      rewrite (bind_normal _ _ _ _ _ _ (check_schema_completes _ _ _ _)).
      destruct (check_imageUrl_object m (h || negb (validate_call validate (JObject m))))
        as (tI & EI & -> & _).
      rewrite (bind_normal _ _ _ _ _ _ EI).
      destruct (path_in_image_field_alone m s
                  (h || negb (validate_call validate (JObject m))
                   || ToBoolean (m !! "imageUrl")) Hs) as [P' _].
      rewrite (bind_normal _ _ _ _ _ _ (P' Hm)).
      pose proof (accumulates_check_studentPhoto (JObject m) true) as ES.
      unfold raise in ES.
      rewrite (bind_completion _ _ _ _ _ ES).
      destruct (check_studentPhoto (JObject m) false) as [tS [[] hS|e|c]];
        cbn [fst snd is_normal app]; rewrite ?Hsugg; cbn [fst snd app];
        rewrite ?app_nil_r; reflexivity. }
    rewrite E. cbn [fst snd]. split; [reflexivity|]. split.
    + destruct (check_imageUrl_object m false) as (tI & _ & <- & HI).
      rewrite !fs_calls_app, fs_calls_schema_report, HI.
      change (fs_calls (line :: ?t)) with (fs_calls t).
      rewrite fs_calls_app.
      destruct (is_normal (snd (check_studentPhoto (JObject m) false)));
        now rewrite ?fs_calls_suggestion_lines, app_nil_r.
    + intros u. destruct (snd (check_studentPhoto (JObject m) false));
        discriminate.
  - intros Hm Hn. cbv zeta.
    set (line := console_log
                   (" - studentPhoto should be a filename only, no path (got '"
                    +:+ s +:+ "')")).
    split; [exact (Salone Hm)|].
    assert (E : validate_data validate file (JObject m) h =
                (schema_report validate file (JObject m)
                 ++ fst (check_imageUrl (JObject m) false)
                 ++ fst (check_projectImage (JObject m) false)
                 ++ line :: suggestion_lines (JObject m),
                 Normal tt true)).
    { unfold validate_data.
      rewrite (bind_normal _ _ _ _ _ _ (check_schema_completes _ _ _ _)).
      destruct (check_imageUrl_object m (h || negb (validate_call validate (JObject m))))
        as (tI & EI & -> & _).
      rewrite (bind_normal _ _ _ _ _ _ EI).
      pose proof (accumulates_check_projectImage (JObject m)
                    (h || negb (validate_call validate (JObject m))
                     || ToBoolean (m !! "imageUrl"))) as EP.
      unfold raise in EP.
      rewrite (bind_completion _ _ _ _ _ EP).
      destruct (check_projectImage (JObject m) false) as [tP [[] hP|e|c]];
        try discriminate Hn.
      cbn [fst snd].
      destruct (path_in_image_field_alone m s
                  (h || negb (validate_call validate (JObject m))
                   || ToBoolean (m !! "imageUrl") || hP) Hs) as [_ S'].
      rewrite (bind_normal _ _ _ _ _ _ (S' Hm)), Hsugg.
      reflexivity. }
    rewrite E. cbn [fst snd]. split; [reflexivity|]. split; [|reflexivity].
    destruct (check_imageUrl_object m false) as (tI & _ & <- & HI).
    rewrite !fs_calls_app, fs_calls_schema_report, HI.
    change (fs_calls (line :: ?t)) with (fs_calls t).
    now rewrite fs_calls_suggestion_lines, app_nil_r.
Qed.

End Properties.

(** ** Instances *)

Lemma C3_truthy_imageUrl_reported_witness :
  @check_imageUrl (JObject old_imageUrl_project) false =
    ([console_log renamed_message], Normal tt true)
  /\ (exists rest,
        trace (@validate_data bare_runtime bare_disk reject_all "a.json"
                 (JObject old_imageUrl_project) false) =
        schema_report reject_all "a.json" (JObject old_imageUrl_project)
        ++ console_log renamed_message :: rest)
  /\ forall u, outcome (@validate_data bare_runtime bare_disk reject_all "a.json"
                          (JObject old_imageUrl_project) false) <> Normal u false.
Proof.
  apply (@C3_truthy_imageUrl_reported bare_runtime bare_disk reject_all
           "a.json" old_imageUrl_project false).
  reflexivity.
Defined.

(** The claim as first stated fails on an [imageUrl] that is present and
    empty: the check leaves the flag down and prints nothing, and a run
    over that one file ends with status 0. *)
Lemma C3_present_imageUrl_not_flagged :
  is_Some (field empty_imageUrl_project "imageUrl")
  /\ check_imageUrl empty_imageUrl_project false = ([], Normal tt false)
  /\ @exit_status (one_file_runtime empty_imageUrl_text empty_imageUrl_project)
       (one_file_disk empty_imageUrl_text) = 0
  /\ ~ In (console_log renamed_message)
         (@output (one_file_runtime empty_imageUrl_text empty_imageUrl_project)
            (one_file_disk empty_imageUrl_text)).
Proof.
  split; [|split; [|split]].
  - vm_compute. eauto.
  - reflexivity.
  - vm_compute. reflexivity.
  - vm_compute. intuition discriminate.
Qed.

Lemma C4_nonempty_imageUrl_flagged_witness :
  @check_imageUrl (JObject old_imageUrl_project) false =
    ([console_log renamed_message], Normal tt true)
  /\ (exists rest,
        trace (@validate_data bare_runtime bare_disk accept_all "a.json"
                 (JObject old_imageUrl_project) false) =
        trace (@check_schema accept_all "a.json" (JObject old_imageUrl_project) false)
        ++ console_log renamed_message :: rest)
  /\ forall u, outcome (@validate_data bare_runtime bare_disk accept_all "a.json"
                          (JObject old_imageUrl_project) false) <> Normal u false.
Proof.
  apply (@C4_nonempty_imageUrl_flagged bare_runtime bare_disk accept_all
           "a.json" old_imageUrl_project "cover.png" false).
  - reflexivity.
  - discriminate.
Defined.

Ltac no_such_char := unfold has_char; cbn; intuition discriminate.

Lemma C10_falsy_image_field_skipped_witness :
  @check_projectImage bare_runtime bare_disk (JObject empty_images) true
    = ([], Normal tt true)
  /\ @check_studentPhoto bare_runtime bare_disk (JObject empty_images) true
     = ([], Normal tt true).
Proof.
  destruct (@C10_falsy_image_field_skipped bare_runtime bare_disk empty_images
              (JString "") true eq_refl) as [P S].
  split; [apply P | apply S]; reflexivity.
Defined.

Lemma C6_size_limit_is_strict_witness :
  @check_projectImage bare_runtime (cover_disk (10 * 1024 * 1024 + 1))
     (JObject cover_only) false
    = ([existsSync_call cover_path; statSync_call cover_path;
        console_log " - image is large (10MB). Please keep < 10MB."],
       Normal tt true)
  /\ @check_studentPhoto bare_runtime (cover_disk (10 * 1024 * 1024))
       (JObject portrait_only) false
     = ([existsSync_call cover_path; statSync_call cover_path],
        Normal tt false).
Proof.
  split.
  - apply (@C6_size_limit_is_strict bare_runtime
             (cover_disk (10 * 1024 * 1024 + 1)) cover_only "cover.png"
             (10 * 1024 * 1024 + 1) false);
      [reflexivity | no_such_char | no_such_char | reflexivity | reflexivity
      | reflexivity].
  - apply (@C6_size_limit_is_strict bare_runtime
             (cover_disk (10 * 1024 * 1024)) portrait_only "cover.png"
             (10 * 1024 * 1024) false);
      [reflexivity | no_such_char | no_such_char | reflexivity | reflexivity
      | reflexivity].
Defined.

Lemma C9_studentPhoto_checked_as_projectImage_witness :
  outcome (@check_studentPhoto bare_runtime bare_disk (JObject portrait_only) false)
    = outcome (@check_projectImage bare_runtime bare_disk (JObject cover_only) false)
  /\ trace (@check_studentPhoto bare_runtime bare_disk (JObject portrait_only) false)
     = map echo_studentPhoto
         (trace (@check_projectImage bare_runtime bare_disk (JObject cover_only) false)).
Proof.
  apply (@C9_studentPhoto_checked_as_projectImage bare_runtime bare_disk
           cover_only portrait_only false).
  reflexivity.
Defined.

Lemma C7_no_eligible_file_witness :
  @exit_status schema_only_runtime no_project_disk = 1
  /\ @output schema_only_runtime no_project_disk =
     [console_log (ESC +:+ "[36mInfo:" +:+ ESC
                   +:+ "[0m Validating project JSON files in /repo/src/data/projects");
      readFileSync_call demo_schema;
      readdirSync_call demo_projects;
      console_error
        (ESC +:+ "[31mError:" +:+ ESC
         +:+ "[0m No project JSON files found. Add files to src/data/projects/.")].
Proof.
  apply (@C7_no_eligible_file schema_only_runtime no_project_disk
           ["project.schema.json"; "README.md"]).
  - reflexivity.
  - constructor; [right; reflexivity|].
    constructor; [left; reflexivity|].
    constructor.
Defined.

Lemma C2_files_and_checks_independent_witness :
  (trace (@validate_data bare_runtime bare_disk reject_all "a.json"
            faulty_project false) =
     [console_log (LF +:+ ESC +:+ "[33ma.json" +:+ ESC +:+ "[0m schema errors:");
      console_log " - (root) boolean schema is false";
      console_log renamed_message;
      console_log
        " - projectImage should be a filename only, no path (got 'img/cover.png')";
      existsSync_call "/repo/public/images/missing.png";
      console_log " - image not found at public/images/missing.png";
      console_log (suggestion_message "tags")]
   /\ outcome (@validate_data bare_runtime bare_disk reject_all "a.json"
                 faulty_project false) = Normal tt true)
  /\ (trace (for_of ["a.json"; "b.json"]
               (@validate_file
                  (two_file_runtime (missing_photo_text, missing_photo_project)
                     (untagged_text, untagged_project))
                  (two_file_disk missing_photo_text untagged_text) accept_all)
               false) =
        [readFileSync_call "/repo/src/data/projects/a.json";
         existsSync_call "/repo/public/images/missing.png";
         console_log " - image not found at public/images/missing.png";
         readFileSync_call "/repo/src/data/projects/b.json";
         console_log (suggestion_message "tags")]
      /\ outcome (for_of ["a.json"; "b.json"]
                    (@validate_file
                       (two_file_runtime (missing_photo_text, missing_photo_project)
                          (untagged_text, untagged_project))
                       (two_file_disk missing_photo_text untagged_text) accept_all)
                    false) = Normal tt true).
Proof.
  split.
  - apply (@C2_files_and_checks_independent bare_runtime bare_disk reject_all
             "a.json" [] faulty_project false).
    reflexivity.
  - apply (@C2_files_and_checks_independent
             (two_file_runtime (missing_photo_text, missing_photo_project)
                (untagged_text, untagged_project))
             (two_file_disk missing_photo_text untagged_text) accept_all
             "a.json" ["a.json"; "b.json"] JNull false).
    reflexivity.
Defined.

(** The claim as first stated fails on an image field that is present and
    empty: with no image on the disk, a run over the one file
    [{ projectImage: '' }] ends with status 0, although the field names no
    existing file. *)
Lemma C1_empty_image_name_passes :
  @exit_status (one_file_runtime empty_project_text empty_project)
     (one_file_disk empty_project_text) = 0
  /\ ~ @run_succeeds_as_stated
         (one_file_runtime empty_project_text empty_project)
         (one_file_disk empty_project_text).
Proof.
  split; [vm_compute; reflexivity|].
  intros (validate & names & _ & Hdir & _ & Hall).
  injection Hdir as <-.
  destruct (Hall "a.json") as (text & data & Htext & Hdata & Hdoc);
    [cbn; tauto|].
  injection Htext as <-. injection Hdata as <-.
  destruct Hdoc as (_ & _ & Himg & _).
  destruct (Himg (JString "") eq_refl) as (s & size & _ & _ & _ & Hex & _).
  discriminate Hex.
Qed.

(** The claim as first stated fails when something is thrown.  A first
    file that does not parse ends the run: the second file, which on its
    own would get a suggestion, is never read.  And a [projectImage] that
    is [true] ends the processing of its document with a [TypeError]:
    the line the [studentPhoto] check would print is not printed. *)
Lemma C2_exception_ends_the_run :
  (@run broken_first_runtime broken_first_disk =
     ([console_log (ESC +:+ "[36mInfo:" +:+ ESC
                    +:+ "[0m Validating project JSON files in /repo/src/data/projects");
       readFileSync_call demo_schema;
       readdirSync_call demo_projects;
       readFileSync_call "/repo/src/data/projects/a.json";
       console_error_exn SyntaxError],
      1)
   /\ @validate_file broken_first_runtime broken_first_disk accept_all
        "b.json" false =
      ([readFileSync_call "/repo/src/data/projects/b.json";
        console_log (suggestion_message "tags")],
       Normal tt false))
  /\ (@validate_data bare_runtime bare_disk accept_all "a.json"
        mistyped_project false = ([], Thrown TypeError)
      /\ @check_studentPhoto bare_runtime bare_disk mistyped_project false =
         ([existsSync_call "/repo/public/images/missing.png";
           console_log " - image not found at public/images/missing.png"],
          Normal tt true)).
Proof. repeat split; vm_compute; reflexivity. Qed.

(** ** Instances of the further properties *)

Lemma X3_directory_must_list_witness :
  @run schema_only_runtime (schema_disk empty_schema_text) =
    (@startup schema_only_runtime
     ++ [readdirSync_call demo_projects;
         console_error_exn (SystemError demo_projects)], 1).
Proof.
  apply (@X3_directory_must_list schema_only_runtime
           (schema_disk empty_schema_text) accept_all); reflexivity.
Defined.

Lemma X4_unreadable_file_ends_run_witness :
  @run broken_second_runtime broken_second_disk =
    (@startup broken_second_runtime
     ++ readdirSync_call demo_projects
        :: [readFileSync_call "/repo/src/data/projects/a.json";
            console_log (suggestion_message "tags")]
     ++ [readFileSync_call "/repo/src/data/projects/b.json";
         console_error_exn SyntaxError], 1)
  /\ @run broken_second_runtime missing_second_disk =
       (@startup broken_second_runtime
        ++ readdirSync_call demo_projects
           :: [readFileSync_call "/repo/src/data/projects/a.json";
               console_log (suggestion_message "tags")]
        ++ [readFileSync_call "/repo/src/data/projects/b.json";
            console_error_exn (SystemError "/repo/src/data/projects/b.json")],
        1).
Proof.
  split.
  - apply (proj2 (@X4_unreadable_file_ends_run broken_second_runtime
                    broken_second_disk accept_all
                    ["a.json"; "project.schema.json"; "b.json"] ["a.json"] []
                    "b.json"
                    [readFileSync_call "/repo/src/data/projects/a.json";
                     console_log (suggestion_message "tags")]
                    false eq_refl eq_refl eq_refl eq_refl) "{");
      reflexivity.
  - apply (proj1 (@X4_unreadable_file_ends_run broken_second_runtime
                    missing_second_disk accept_all
                    ["a.json"; "project.schema.json"; "b.json"] ["a.json"] []
                    "b.json"
                    [readFileSync_call "/repo/src/data/projects/a.json";
                     console_log (suggestion_message "tags")]
                    false eq_refl eq_refl eq_refl eq_refl)).
    reflexivity.
Defined.

Lemma X6_missing_image_reported_witness :
  @check_projectImage bare_runtime bare_disk (JObject both_covers) false =
    ([existsSync_call cover_path;
      console_log " - image not found at public/images/cover.png"],
     Normal tt true)
  /\ @check_studentPhoto bare_runtime bare_disk (JObject both_covers) false =
       ([existsSync_call cover_path;
         console_log " - image not found at public/images/cover.png"],
        Normal tt true).
Proof.
  destruct (@X6_missing_image_reported bare_runtime bare_disk both_covers
              "cover.png" false eq_refl ltac:(no_such_char)
              ltac:(no_such_char) eq_refl) as [P S].
  split; [apply P | apply S]; reflexivity.
Defined.


Lemma X10_primitive_document_throws_witness :
  @validate_data bare_runtime bare_disk reject_all "a.json" JNull false =
    (schema_report reject_all "a.json" JNull, Thrown TypeError).
Proof.
  apply (@X10_primitive_document_throws bare_runtime bare_disk reject_all
           "a.json" JNull false); discriminate.
Defined.

Lemma X13_failure_reported_at_end_witness :
  @exit_status
     (two_file_runtime (missing_photo_text, missing_photo_project)
        (untagged_text, untagged_project))
     (two_file_disk missing_photo_text untagged_text) = 1
  /\ last (@output
             (two_file_runtime (missing_photo_text, missing_photo_project)
                (untagged_text, untagged_project))
             (two_file_disk missing_photo_text untagged_text))
     = Some (console_log failed_message)
  /\ forall f, In f ["a.json"; "b.json"] ->
       In (readFileSync_call (posix_join [demo_projects; f]))
          (@output
             (two_file_runtime (missing_photo_text, missing_photo_project)
                (untagged_text, untagged_project))
             (two_file_disk missing_photo_text untagged_text)).
Proof.
  apply (@X13_failure_reported_at_end
           (two_file_runtime (missing_photo_text, missing_photo_project)
              (untagged_text, untagged_project))
           (two_file_disk missing_photo_text untagged_text) accept_all
           ["a.json"; "project.schema.json"; "b.json"] "a.json").
  - reflexivity.
  - reflexivity.
  - intros f [<-|[<-|[]]]; reflexivity.
  - left. reflexivity.
  - reflexivity.
Defined.

Lemma X16_clean_run_prints_only_suggestions_witness :
  exists names middle,
    @dir_entries (two_file_disk complete_text untagged_text) demo_projects
      = Some names
    /\ @output (two_file_runtime (complete_text, complete_project)
                  (untagged_text, untagged_project))
         (two_file_disk complete_text untagged_text) =
       @startup (two_file_runtime (complete_text, complete_project)
                   (untagged_text, untagged_project))
       ++ readdirSync_call demo_projects :: middle
       ++ [console_log (all_valid_message (List.length (eligible names)))]
    /\ Forall harmless middle.
Proof.
  apply (@X16_clean_run_prints_only_suggestions
           (two_file_runtime (complete_text, complete_project)
              (untagged_text, untagged_project))
           (two_file_disk complete_text untagged_text)).
  reflexivity.
Defined.

Lemma X17_unreadable_size_throws_witness :
  @check_projectImage bare_runtime vanishing_disk (JObject both_covers) false =
    ([existsSync_call cover_path; statSync_call cover_path],
     Thrown (SystemError cover_path))
  /\ @check_studentPhoto bare_runtime vanishing_disk (JObject both_covers)
       false =
       ([existsSync_call cover_path; statSync_call cover_path],
        Thrown (SystemError cover_path)).
Proof.
  destruct (@X17_unreadable_size_throws bare_runtime vanishing_disk both_covers
              "cover.png" false eq_refl ltac:(no_such_char)
              ltac:(no_such_char) eq_refl eq_refl) as [P S].
  split; [apply P | apply S]; reflexivity.
Defined.

Lemma X2_schema_must_load_witness :
  @run bare_runtime bare_disk =
    (@startup bare_runtime ++ [console_error_exn (SystemError demo_schema)], 1)
  /\ @run bare_runtime (schema_disk "{") =
       (@startup bare_runtime ++ [console_error_exn SyntaxError], 1)
  /\ @run rejecting_runtime (schema_disk empty_schema_text) =
       (@startup rejecting_runtime
        ++ [console_error_exn SchemaCompileError], 1).
Proof.
  split; [|split].
  - apply (@X2_schema_must_load bare_runtime bare_disk). reflexivity.
  - apply (proj1 (proj2 (@X2_schema_must_load bare_runtime (schema_disk "{")))
             "{"); reflexivity.
  - apply (proj2 (proj2 (@X2_schema_must_load rejecting_runtime
                           (schema_disk empty_schema_text)))
             empty_schema_text (JObject ∅)); reflexivity.
Defined.

(** ** Instances of the path and suggestion properties *)

Lemma C5_path_in_image_field_witness :
  trace (@validate_data bare_runtime bare_disk accept_all "a.json"
           (JObject path_images) false) =
    [console_log
       " - projectImage should be a filename only, no path (got 'img/cover.png')";
     console_log
       " - studentPhoto should be a filename only, no path (got 'img\me.png')";
     console_log (suggestion_message "projectUrl");
     console_log (suggestion_message "githubUrl");
     console_log (suggestion_message "tags")]
  /\ fs_calls (trace (@validate_data bare_runtime bare_disk accept_all "a.json"
                        (JObject path_images) false)) = []
  /\ outcome (@validate_data bare_runtime bare_disk accept_all "a.json"
                (JObject path_images) false) = Normal tt true
  /\ forall u,
       outcome (@validate_data bare_runtime bare_disk accept_all "a.json"
                  (JObject path_images) false) <> Normal u false.
Proof.
  destruct (@C5_path_in_image_field bare_runtime bare_disk accept_all "a.json"
              path_images "img\me.png" false) as [_ S];
    [right; cbn; tauto|].
  destruct (S eq_refl eq_refl) as (_ & T & F & O).
  destruct (@C5_path_in_image_field bare_runtime bare_disk accept_all "a.json"
              path_images "img/cover.png" false) as [P _];
    [left; cbn; tauto|].
  destruct (P eq_refl) as (_ & _ & _ & O').
  split; [exact T|]. split; [exact F|]. split; [exact O | exact O'].
Defined.

(** The claim as first stated fails for a [studentPhoto] that comes after
    a [projectImage] that is not a string: the [projectImage] check throws
    a [TypeError], the path in [studentPhoto] is never looked at, no line
    about it is printed, and the flag is never raised (the run ends on the
    exception). *)
Lemma C5_path_after_throwing_check :
  has_char "/" "img/me.png"
  /\ field late_path_project "studentPhoto" = Some (JString "img/me.png")
  /\ @validate_data bare_runtime bare_disk accept_all "a.json"
       late_path_project false = ([], Thrown TypeError)
  /\ @run (one_file_runtime late_path_text late_path_project)
          (one_file_disk late_path_text) =
     ([console_log (ESC +:+ "[36mInfo:" +:+ ESC
                    +:+ "[0m Validating project JSON files in /repo/src/data/projects");
       readFileSync_call demo_schema;
       readdirSync_call demo_projects;
       readFileSync_call "/repo/src/data/projects/a.json";
       console_error_exn TypeError],
      1).
Proof.
  split; [cbn; tauto|]. repeat split; vm_compute; reflexivity.
Qed.

Lemma C8_suggestions_leave_flag_witness :
  @validate_data bare_runtime bare_disk accept_all "a.json" untagged_project
     false =
    ([console_log (suggestion_message "tags")], Normal tt false)
  /\ @validate_data bare_runtime bare_disk reject_all "a.json" list_project
       false =
     ([console_log (LF +:+ ESC +:+ "[33ma.json" +:+ ESC +:+ "[0m schema errors:");
       console_log " - (root) boolean schema is false";
       console_log (suggestion_message "projectUrl");
       console_log (suggestion_message "githubUrl");
       console_log (suggestion_message "tags")],
      Normal tt true).
Proof.
  split.
  - apply (@C8_suggestions_leave_flag bare_runtime bare_disk accept_all
             "a.json" untagged_project false).
    left. eexists. reflexivity.
  - apply (@C8_suggestions_leave_flag bare_runtime bare_disk reject_all
             "a.json" list_project false).
    right. eexists. reflexivity.
Defined.

(** The claim as first stated fails on a document that is a number: none
    of the three keys is there, the checks before the suggestions find
    nothing and leave the flag down, and the suggestion step throws a
    [TypeError] on its first key; no suggestion is printed and the run
    ends with status 1. *)
Lemma C8_suggestion_step_throws_on_a_number :
  (field five_project "projectUrl" = None
   /\ field five_project "githubUrl" = None
   /\ field five_project "tags" = None)
  /\ @checks_before_suggestions bare_runtime bare_disk accept_all "a.json"
       five_project false = ([], Normal tt false)
  /\ check_suggested five_project false = ([], Thrown TypeError)
  /\ @run (one_file_runtime five_text five_project) (one_file_disk five_text) =
     ([console_log (ESC +:+ "[36mInfo:" +:+ ESC
                    +:+ "[0m Validating project JSON files in /repo/src/data/projects");
       readFileSync_call demo_schema;
       readdirSync_call demo_projects;
       readFileSync_call "/repo/src/data/projects/a.json";
       console_error_exn TypeError],
      1).
Proof. repeat split; vm_compute; reflexivity. Qed.

(** ** The scenarios of the specification *)

(** One complete file and one without [tags]: status 0, a suggestion for
    [tags], no error, and a summary counting two files. *)
Example two_valid_files :
  @run (two_file_runtime (complete_text, complete_project)
          (untagged_text, untagged_project))
       (two_file_disk complete_text untagged_text) =
  ([console_log (ESC +:+ "[36mInfo:" +:+ ESC
                 +:+ "[0m Validating project JSON files in /repo/src/data/projects");
    readFileSync_call demo_schema;
    readdirSync_call demo_projects;
    readFileSync_call "/repo/src/data/projects/a.json";
    readFileSync_call "/repo/src/data/projects/b.json";
    console_log (suggestion_message "tags");
    console_log (LF +:+ ESC +:+ "[32mAll 2 project files are valid." +:+ ESC
                 +:+ "[0m")],
   0).
Proof. vm_compute. reflexivity. Qed.

(** A schema-valid file whose [studentPhoto] names a file that is not
    there: status 1 and the line about [public/images/missing.png]. *)
Example missing_student_photo :
  @run (one_file_runtime missing_photo_text missing_photo_project)
       (one_file_disk missing_photo_text) =
  ([console_log (ESC +:+ "[36mInfo:" +:+ ESC
                 +:+ "[0m Validating project JSON files in /repo/src/data/projects");
    readFileSync_call demo_schema;
    readdirSync_call demo_projects;
    readFileSync_call "/repo/src/data/projects/a.json";
    existsSync_call "/repo/public/images/missing.png";
    console_log " - image not found at public/images/missing.png";
    console_log (LF +:+ ESC
                 +:+ "[31mValidation failed. Please fix the issues above."
                 +:+ ESC +:+ "[0m")],
   1).
Proof. vm_compute. reflexivity. Qed.
